(** * The blog application's request handlers (app/blog/views.py)

    A shallow embedding of the five views [post_list], [post_detail],
    [post_share], [post_comment] and [post_search], together with the
    parts of the framework they call: query sets over the Post, Tag and
    Comment tables, [get_object_or_404], the paginator, forms, and the
    mail gateway.

    Effects are explicit: a view that only reads returns a [result]; the
    share view threads the mail outbox, the comment view threads the
    Comment table. *)

From stdpp Require Import base option list sorting strings fin_sets gmap.
From Stdlib Require Import ZArith QArith Qround Qpower Lia Ascii.

Local Open Scope Z_scope.

(** ** Python exceptions and results *)

Inductive exn :=
| DoesNotExist
| MultipleObjectsReturned
| Http404
| PageNotAnInteger
| EmptyPage
| SMTPException
| ValueError
| OverflowError.

Inductive result (A : Type) :=
| Ok (a : A)
| Raise (e : exn).
Arguments Ok {A} a.
Arguments Raise {A} e.

Global Instance exn_eq_dec : EqDecision exn.
Proof. solve_decision. Defined.

Global Instance result_ret : MRet result := λ A a, Ok a.

Global Instance result_bind : MBind result := λ A B k r,
  match r with
  | Ok a => k a
  | Raise e => Raise e
  end.

(** [try: r except e1: h1 except e2: h2 ...]: the first handler whose
    exception class matches runs; what a handler raises is not handled by
    its siblings. *)
Fixpoint handle {A} (hs : list (exn * result A)) (e : exn) : result A :=
  match hs with
  | [] => Raise e
  | (e', h) :: hs' => if bool_decide (e = e') then h else handle hs' e
  end.

Definition try_except {A} (r : result A) (hs : list (exn * result A)) : result A :=
  match r with
  | Ok a => Ok a
  | Raise e => handle hs e
  end.

(** ** Time stamps

    A [datetime] has the fields of Python's [datetime.datetime]; values
    are compared field by field, most significant first. *)

Module datetime.

Record t := mk {
  year : Z; month : Z; day : Z;
  hour : Z; minute : Z; second : Z; microsecond : Z
}.

Definition key (d : t) : list Z :=
  [year d; month d; day d; hour d; minute d; second d; microsecond d].

Fixpoint lex_leb (a b : list Z) : bool :=
  match a, b with
  | [], _ => true
  | _ :: _, [] => false
  | x :: a', y :: b' => (x <? y) || ((x =? y) && lex_leb a' b')
  end.

Definition leb (a b : t) : bool := lex_leb (key a) (key b).

Definition le (a b : t) : Prop := leb a b = true.

Global Instance le_dec a b : Decision (le a b).
Proof. unfold le. apply _. Defined.

Global Instance eq_dec : EqDecision t.
Proof. solve_decision. Defined.

End datetime.

(** ** The data model (blog/models.py and taggit.models) *)

Module Tag.

Record t := mk { id : Z; name : string; slug : string }.

Global Instance eq_dec : EqDecision t.
Proof. solve_decision. Defined.

End Tag.

Module Post.

(** [Post.Status] *)
Inductive Status := DRAFT | PUBLISHED.

Global Instance Status_eq_dec : EqDecision Status.
Proof. solve_decision. Defined.

Record t := mk {
  id : Z;
  title : string;
  slug : string;
  author : Z;
  body : string;
  publish : datetime.t;
  created : datetime.t;
  updated : datetime.t;
  status : Status;
  tags : gset Z               (* ids of the Tag rows attached to the post *)
}.

Global Instance eq_dec : EqDecision t.
Proof. solve_decision. Defined.

End Post.

Module Comment.

(** A Comment instance.  [id] and [created] are [None] until the
    instance is saved; [post] is [None] until the view binds it. *)
Record t := mk {
  id : option Z;
  post : option Z;            (* id of the owning Post *)
  name : string;
  email : string;
  body : string;
  created : option datetime.t;
  active : bool
}.

Global Instance eq_dec : EqDecision t.
Proof. solve_decision. Defined.

End Comment.

(** The three tables the views read and write. *)
Record DB := mkDB {
  posts : list Post.t;
  tags : list Tag.t;
  comments : list Comment.t
}.

(** ** Query sets

    A query set is the list of rows it selects. [get] is
    [QuerySet.get]: exactly one matching row, or one of the two
    exceptions. *)

Section queryset.
Context {A : Type} (P : A → Prop) `{∀ x, Decision (P x)}.

Definition get (qs : list A) : result A :=
  match filter P qs with
  | [] => Raise DoesNotExist
  | [x] => Ok x
  | _ :: _ :: _ => Raise MultipleObjectsReturned
  end.

(** [django.shortcuts.get_object_or_404]: only [DoesNotExist] is turned
    into [Http404]. *)
Definition get_object_or_404 (qs : list A) : result A :=
  try_except (get qs) [(DoesNotExist, Raise Http404)].

End queryset.

(** [get_object_or_404(Post, ...)] queries the default manager of the
    model.  The views pass [status=Post.Status.PUBLISHED] to it themselves,
    and the default manager is taken to be the plain [Post.objects], which
    selects every row. *)
Definition Post_objects (db : DB) : list Post.t := posts db.

(** Modelled from the spec: the [published] manager of blog/models.py,
    which is not part of the sources at hand.  The spec defines a published
    post as one with status PUBLISHED and a publish timestamp that is not
    in the future. *)
Definition is_published (now : datetime.t) (p : Post.t) : Prop :=
  Post.status p = Post.PUBLISHED ∧ datetime.le (Post.publish p) now.

Global Instance is_published_dec now p : Decision (is_published now p).
Proof. unfold is_published. apply _. Defined.

Definition Post_published (now : datetime.t) (db : DB) : list Post.t :=
  filter (is_published now) (posts db).

(** ** Requests and responses *)

Record HttpRequest := mkRequest {
  method : string;
  GET : gmap string string;
  POST : gmap string string
}.

(** What a view hands back: a rendered template with its context, or the
    405 response of [require_POST]. *)
Inductive HttpResponse (C : Type) :=
| Render (template_name : string) (context : C)
| HttpResponseNotAllowed (permitted : list string).
Arguments Render {C} template_name context.
Arguments HttpResponseNotAllowed {C} permitted.

(** ** Pagination (django.core.paginator)

    The view builds [Paginator(post_list, 3)], so [orphans] is 0 and
    [allow_empty_first_page] is true. *)

(** The value of [request.GET.get('page', 1)]: the submitted string, or
    the integer default. *)
Inductive pyval :=
| PyInt (n : Z)
| PyStr (s : string).

(** [l[bottom:top]] for indices that are not negative. *)
Definition slice {A} (l : list A) (bottom top : Z) : list A :=
  take (Z.to_nat (top - bottom)) (drop (Z.to_nat bottom) l).

Module Paginator.
Section paginator.
(** Python's [int] on a string; [None] stands for its ValueError. *)
Variable int_of_str : string → option Z.
Context {A : Type}.

Record t := mk { object_list : list A; per_page : Z }.

Record Page := mkPage {
  page_object_list : list A;
  number : Z;
  paginator : t
}.

Definition count (p : t) : Z := Z.of_nat (length (object_list p)).

(** [ceil(max(1, count - orphans) / per_page)] *)
Definition num_pages (p : t) : Z :=
  let hits := Z.max 1 (count p - 0) in
  (hits + per_page p - 1) / per_page p.

(** [int(number)], a failure of which is raised as PageNotAnInteger. *)
Definition to_int (number : pyval) : result Z :=
  match number with
  | PyInt n => Ok n
  | PyStr s =>
      match int_of_str s with
      | Some n => Ok n
      | None => Raise PageNotAnInteger
      end
  end.

Definition validate_number (p : t) (number : pyval) : result Z :=
  n ← to_int number;
  if n <? 1 then Raise EmptyPage
  else if num_pages p <? n then Raise EmptyPage
  else Ok n.

Definition page (p : t) (number : pyval) : result Page :=
  n ← validate_number p number;
  let bottom := (n - 1) * per_page p in
  let top := bottom + per_page p in
  let top := if count p <=? top + 0 then count p else top in
  Ok (mkPage (slice (object_list p) bottom top) n p).

End paginator.
End Paginator.

(** ** Forms (django.forms)

    A form is its class's validation together with the data it is bound
    to.  [errors] and [cleaned_data] are computed from these, as Django's
    [full_clean] does; [is_valid] is [is_bound and not errors]. The views
    read [cleaned_data] of valid forms only. *)

Module forms.

Definition ErrorDict := list (string * list string).

Record Form (C : Type) := mk {
  full_clean : gmap string string → ErrorDict * C;
  is_bound : bool;
  data : gmap string string
}.
Arguments mk {C} full_clean is_bound data.
Arguments full_clean {C} f.
Arguments is_bound {C} f.
Arguments data {C} f.

(** [FormClass()] *)
Definition unbound {C} (clean : gmap string string → ErrorDict * C) : Form C :=
  mk clean false ∅.

(** [FormClass(data)] *)
Definition bound {C} (clean : gmap string string → ErrorDict * C)
    (d : gmap string string) : Form C :=
  mk clean true d.

Definition errors {C} (f : Form C) : ErrorDict :=
  if is_bound f then (full_clean f (data f)).1 else [].

Definition cleaned_data {C} (f : Form C) : C := (full_clean f (data f)).2.

Definition is_valid {C} (f : Form C) : bool :=
  is_bound f && bool_decide (errors f = []).

End forms.

(** The cleaned data of the three forms of blog/forms.py.  What each form
    checks (required fields, address syntax, length bounds) is the form
    validator's business; the views below take the validation as given. *)
Record EmailPostData := mkEmailPostData {
  cd_name : string;
  cd_email : string;
  cd_to : string;
  cd_comments : string
}.

Record CommentData := mkCommentData {
  cd_author : string;           (* the form's 'name' field *)
  cd_author_email : string;     (* the form's 'email' field *)
  cd_body : string
}.

(** ** post_list *)

Record list_context := mkListContext {
  list_posts : @Paginator.Page Post.t;
  list_tag : option Tag.t
}.

Section post_list.
Variable int_of_str : string → option Z.

Definition post_list (now : datetime.t) (db : DB) (request : HttpRequest)
    (tag_slug : option string) : result (HttpResponse list_context) :=
  let template_name := "blog/post/list.html" in
  let post_list := Post_published now db in
  '(tag, post_list) ←
    match tag_slug with
    | Some s =>
        if bool_decide (s = EmptyString) then Ok (None, post_list)
        else
          tag ← get_object_or_404 (λ t, Tag.slug t = s) (tags db);
          Ok (Some tag, filter (λ p, Tag.id tag ∈ Post.tags p) post_list)
    | None => Ok (None, post_list)
    end;
  (* 3 posts per page *)
  let paginator := Paginator.mk post_list 3 in
  let page_number :=
    match GET request !! "page" with
    | Some s => PyStr s
    | None => PyInt 1
    end in
  posts ←
    try_except (Paginator.page int_of_str paginator page_number)
      [ (PageNotAnInteger, Paginator.page int_of_str paginator (PyInt 1));
        (EmptyPage,
         Paginator.page int_of_str paginator
           (PyInt (Paginator.num_pages paginator))) ];
  Ok (Render template_name (mkListContext posts tag)).

End post_list.

(** ** post_detail *)

(** A row of [similar_posts]: the post with its [same_tags] annotation. *)
Record similar_post := mkSimilar {
  sp_post : Post.t;
  same_tags : nat
}.

(** [order_by('-same_tags', '-publish')] *)
Definition same_tags_publish_desc (a b : similar_post) : Prop :=
  (same_tags b < same_tags a)%nat ∨
  (same_tags a = same_tags b ∧
   datetime.le (Post.publish (sp_post b)) (Post.publish (sp_post a))).

Global Instance same_tags_publish_desc_dec a b :
  Decision (same_tags_publish_desc a b).
Proof. unfold same_tags_publish_desc. apply _. Defined.

(** Modelled from the spec: the default ordering of the Comment model of
    blog/models.py, which is absent.  The spec has the comments of a post
    in the order of their creation time. *)
Definition created_le (a b : Comment.t) : Prop :=
  match Comment.created a, Comment.created b with
  | Some x, Some y => datetime.le x y
  | None, _ => True
  | Some _, None => False
  end.

Global Instance created_le_dec a b : Decision (created_le a b).
Proof.
  unfold created_le.
  destruct (Comment.created a), (Comment.created b); apply _.
Defined.

(** [publish__year=year]: the year lookup builds the bounds
    [datetime.datetime(year, 1, 1)] and
    [datetime.datetime(year, 12, 31, 23, 59, 59, 999999)] before the query
    runs.  The constructor raises ValueError for a year outside 1..9999
    and OverflowError for one that does not fit a C int; neither is
    caught by [get_object_or_404]. *)
Definition year_lookup_bounds (year : Z) : result unit :=
  if bool_decide (- 2 ^ 31 ≤ year < 2 ^ 31) then
    if bool_decide (1 ≤ year ≤ 9999) then Ok () else Raise ValueError
  else Raise OverflowError.

Record detail_context := mkDetailContext {
  detail_post : Post.t;
  detail_comments : list Comment.t;
  detail_form : forms.Form CommentData;
  detail_similar_posts : list similar_post
}.

Section post_detail.
Variable CommentForm : gmap string string → forms.ErrorDict * CommentData.

(** The lookup of lines 47-52: status, the three date parts and the
    slug. *)
Definition detail_lookup (year month day : Z) (post_slug : string)
    (p : Post.t) : Prop :=
  Post.status p = Post.PUBLISHED ∧
  datetime.year (Post.publish p) = year ∧
  datetime.month (Post.publish p) = month ∧
  datetime.day (Post.publish p) = day ∧
  Post.slug p = post_slug.

Global Instance detail_lookup_dec y m d s p : Decision (detail_lookup y m d s p).
Proof. unfold detail_lookup. apply _. Defined.

(** [filter(tags__in=ids)]: the join with the tag table keeps a post
    when one of its tags is among [ids]. *)
Definition tags_in (ids : gset Z) (p : Post.t) : Prop :=
  set_Exists (λ t, t ∈ ids) (Post.tags p).

Global Instance tags_in_dec ids p : Decision (tags_in ids p).
Proof. unfold tags_in. apply _. Defined.

(** [Count('tags')] over the joined rows of one post. *)
Definition count_tags (ids : gset Z) (p : Post.t) : nat :=
  size (filter (λ t, t ∈ ids) (Post.tags p)).

(** [Post.published.filter(tags__in=post_tags_ids).exclude(id=post.id)
     .annotate(same_tags=Count('tags'))
     .order_by('-same_tags', '-publish')[:4]] *)
Definition similar_posts_of (now : datetime.t) (db : DB) (post : Post.t)
    : list similar_post :=
  let post_tags_ids := Post.tags post in
  let similar_posts :=
    filter (λ p, Post.id p ≠ Post.id post)
      (filter (tags_in post_tags_ids) (Post_published now db)) in
  let similar_posts :=
    (λ p, mkSimilar p (count_tags post_tags_ids p)) <$> similar_posts in
  take 4 (merge_sort same_tags_publish_desc similar_posts).

(** The lookup of lines 47-52 on the default manager. *)
Definition detail_get (year month day : Z) (post_slug : string) (db : DB)
    : result Post.t :=
  _ ← year_lookup_bounds year;
  get_object_or_404 (detail_lookup year month day post_slug) (Post_objects db).

Definition post_detail (now : datetime.t) (db : DB) (request : HttpRequest)
    (year month day : Z) (post_slug : string)
    : result (HttpResponse detail_context) :=
  let template_name := "blog/post/detail.html" in
  post ← detail_get year month day post_slug db;
  let comments :=
    merge_sort created_le
      (filter (λ c, Comment.post c = Some (Post.id post) ∧ Comment.active c = true)
         (comments db)) in
  let form := forms.unbound CommentForm in
  let similar_posts := similar_posts_of now db post in
  Ok (Render template_name
        (mkDetailContext post comments form similar_posts)).

End post_detail.

(** ** Views with effects

    [io S A] is a computation that reads and updates a store [S] and
    either returns an [A] or raises. *)

Definition io (S A : Type) : Type := S → result A * S.

Global Instance io_ret {S} : MRet (io S) := λ A a s, (Ok a, s).

Global Instance io_bind {S} : MBind (io S) := λ A B k m s,
  match m s with
  | (Ok a, s') => k a s'
  | (Raise e, s') => (Raise e, s')
  end.

(** A computation that does not touch the store. *)
Definition lift {S A} (r : result A) : io S A := λ s, (r, s).

(** Reading from the store. *)
Definition gets {S A} (f : S → A) : io S A := λ s, (Ok (f s), s).

(** ** post_share *)

Record EmailMessage := mkEmail {
  subject : string;
  message : string;
  from_email : string;
  recipient_list : list string
}.

Global Instance EmailMessage_eq_dec : EqDecision EmailMessage.
Proof. solve_decision. Defined.

Record share_context := mkShareContext {
  share_post : Post.t;
  share_form : forms.Form EmailPostData;
  share_sent : bool
}.

(** The line feed of the message template. *)
Definition LF : string := String (Ascii.ascii_of_nat 10) EmptyString.

(** The lookup of [post_share] and [post_comment]: id and status. *)
Definition id_lookup (post_id : Z) (p : Post.t) : Prop :=
  Post.id p = post_id ∧ Post.status p = Post.PUBLISHED.

Global Instance id_lookup_dec post_id p : Decision (id_lookup post_id p).
Proof. unfold id_lookup. apply _. Defined.

Section post_share.
(** [Post.get_absolute_url] (blog/models.py) and
    [HttpRequest.build_absolute_uri] (the framework). *)
Variable get_absolute_url : Post.t → string.
Variable build_absolute_uri : HttpRequest → string → string.
Variable EmailPostForm : gmap string string → forms.ErrorDict * EmailPostData.
(** The mail transport: whether it takes a message or fails. *)
Variable transport_accepts : EmailMessage → bool.

(** [django.core.mail.send_mail] with [fail_silently] left false: one
    message is handed to the transport, whose failure is raised. *)
Definition send_mail (subject message from_email : string)
    (recipient_list : list string) : io (list EmailMessage) Z :=
  λ outbox,
    let m := mkEmail subject message from_email recipient_list in
    if transport_accepts m then (Ok 1, outbox ++ [m])
    else (Raise SMTPException, outbox).

Definition post_share (db : DB) (request : HttpRequest) (post_id : Z)
    : io (list EmailMessage) (HttpResponse share_context) :=
  let template_name := "blog/post/share.html" in
  post ← lift (get_object_or_404 (id_lookup post_id) (Post_objects db));
  let sent := false in
  if bool_decide (method request = "POST") then
    let form := forms.bound EmailPostForm (POST request) in
    if forms.is_valid form then
      let cd := forms.cleaned_data form in
      let post_url := build_absolute_uri request (get_absolute_url post) in
      let subject :=
        cd_name cd +:+ " recommends you read " +:+ Post.title post in
      let message :=
        "Read " +:+ Post.title post +:+ " at " +:+ post_url +:+ LF +:+ LF +:+
        cd_name cd +:+ "'s comments: " +:+ cd_comments cd in
      _ ← send_mail subject message "danylov.lv@gmail.com" [cd_to cd];
      let sent := true in
      mret (Render template_name (mkShareContext post form sent))
    else
      mret (Render template_name (mkShareContext post form sent))
  else
    let form := forms.unbound EmailPostForm in
    mret (Render template_name (mkShareContext post form sent)).

End post_share.

(** ** post_comment *)

Record comment_context := mkCommentContext {
  comment_post : Post.t;
  comment_form : forms.Form CommentData;
  comment_comment : option Comment.t
}.

(** [django.views.decorators.http.require_POST] *)
Definition require_POST {S C} (view : HttpRequest → io S (HttpResponse C))
    (request : HttpRequest) : io S (HttpResponse C) :=
  if bool_decide (method request ∈ ["POST"]) then view request
  else mret (HttpResponseNotAllowed ["POST"]).

(** Modelled from the spec: [CommentForm.save(commit=False)] builds a
    Comment from the cleaned fields and the defaults that the Comment
    model of blog/models.py (absent) declares; by the spec the active
    flag defaults to true. *)
Definition CommentForm_save (cd : CommentData) : Comment.t :=
  Comment.mk None None (cd_author cd) (cd_author_email cd) (cd_body cd) None true.

(** The key the table hands out to a new row. *)
Definition next_id (table : list Comment.t) : Z :=
  1 + foldr (λ c acc, Z.max (default 0 (Comment.id c)) acc) 0 table.

(** [Comment.save()] of an instance without a key: one row is inserted,
    with a fresh key and the creation time. *)
Definition Comment_save (now : datetime.t) (c : Comment.t) : io DB Comment.t :=
  λ db,
    let c' :=
      Comment.mk (Some (next_id (comments db))) (Comment.post c)
        (Comment.name c) (Comment.email c) (Comment.body c) (Some now)
        (Comment.active c) in
    (Ok c', mkDB (posts db) (tags db) (comments db ++ [c'])).

Section post_comment.
Variable CommentForm : gmap string string → forms.ErrorDict * CommentData.

Definition post_comment (now : datetime.t) (post_id : Z)
    : HttpRequest → io DB (HttpResponse comment_context) :=
  require_POST (λ request,
    let template_name := "blog/post/comment.html" in
    objects ← gets Post_objects;
    post ← lift (get_object_or_404 (id_lookup post_id) objects);
    let comment := None in
    let form := forms.bound CommentForm (POST request) in
    if forms.is_valid form then
      let comment := CommentForm_save (forms.cleaned_data form) in
      let comment :=
        Comment.mk (Comment.id comment) (Some (Post.id post))
          (Comment.name comment) (Comment.email comment)
          (Comment.body comment) (Comment.created comment)
          (Comment.active comment) in
      comment ← Comment_save now comment;
      mret (Render template_name (mkCommentContext post form (Some comment)))
    else
      mret (Render template_name (mkCommentContext post form comment))).

End post_comment.

(** ** Floating point

    A finite floating-point number is the rational it stands for.
    [round prec emin] is rounding to the nearest number with [prec]
    binary digits and exponent at least [emin], ties going to the even
    digit string, as IEEE 754 arithmetic does; overflow to infinity is
    left out, the scores below being at most 2. *)

Module float.

Definition round_half_even (q : Q) : Z :=
  let z := Qfloor q in
  match (q - inject_Z z ?= 1 # 2)%Q with
  | Lt => z
  | Gt => z + 1
  | Eq => if Z.even z then z else z + 1
  end.

(** The integer part of the binary logarithm of a positive rational. *)
Definition ilog2 (x : Q) : Z :=
  let k := Z.log2 (Qnum x) - Z.log2 (Zpos (Qden x)) in
  if Qle_bool (2 ^ k) x then k else k - 1.

Section format.
Variables prec emin : Z.

Definition round_pos (x : Q) : Q :=
  let e := Z.max (ilog2 x - (prec - 1)) emin in
  (inject_Z (round_half_even (x / 2 ^ e)) * 2 ^ e)%Q.

Definition round (x : Q) : Q :=
  match (x ?= 0)%Q with
  | Eq => 0%Q
  | Gt => round_pos x
  | Lt => (- round_pos (- x))%Q
  end.

End format.

(** PostgreSQL's [real] and Python's [float]. *)
Definition float4 : Q → Q := round 24 (-149).
Definition float8 : Q → Q := round 53 (-1074).

End float.

(** ** post_search *)

(** A search result: the post with its [similarity] annotation, a
    [real] of the database. *)
Record search_result := mkSearchResult {
  sr_post : Post.t;
  similarity : Q
}.

Global Instance Qle_dec (a b : Q) : Decision (a <= b)%Q :=
  match Qlt_le_dec b a with
  | left H => right (Qlt_not_le _ _ H)
  | right H => left H
  end.

(** [order_by('-similarity')] *)
Definition similarity_desc (a b : search_result) : Prop :=
  (similarity b <= similarity a)%Q.

Global Instance similarity_desc_dec a b : Decision (similarity_desc a b).
Proof. unfold similarity_desc. apply _. Defined.

Record search_context := mkSearchContext {
  search_form : forms.Form string;
  search_query : option string;
  search_results : list search_result
}.

(** The Python float [0.1] of [similarity__gte=0.1]. *)
Definition similarity_gte : Q := float.float8 (1 # 10).

Section post_search.
(** [TrigramSimilarity(field, query)] of django.contrib.postgres: the
    [real] that the database function [similarity] returns. *)
Variable TrigramSimilarity : string → string → Q.
Variable SearchForm : gmap string string → forms.ErrorDict * string.

(** The sum of two [real]s is a [real]: the database adds in single
    precision. *)
Definition query_similarity (query : string) (p : Post.t) : Q :=
  float.float4
    (TrigramSimilarity (Post.title p) query
     + TrigramSimilarity (Post.body p) query)%Q.

Definition post_search (now : datetime.t) (db : DB) (request : HttpRequest)
    : result (HttpResponse search_context) :=
  let template_name := "blog/post/search.html" in
  let form := forms.unbound SearchForm in
  let query := None in
  let results := [] in
  let '(form, query, results) :=
    if bool_decide ("query" ∈ dom (GET request)) then
      let form := forms.bound SearchForm (GET request) in
      if forms.is_valid form then
        let query := forms.cleaned_data form in
        let results :=
          merge_sort similarity_desc
            (filter (λ r, (similarity_gte <= similarity r)%Q)
               ((λ p, mkSearchResult p (query_similarity query p))
                  <$> Post_published now db)) in
        (form, Some query, results)
      else (form, query, results)
    else (form, query, results) in
  Ok (Render template_name (mkSearchContext form query results)).

End post_search.

(** ** What the statements below speak of *)

(** The message that [post_share] composes for a post and the cleaned
    form data. *)
Definition share_email (get_absolute_url : Post.t → string)
    (build_absolute_uri : HttpRequest → string → string)
    (request : HttpRequest) (post : Post.t) (cd : EmailPostData) : EmailMessage :=
  mkEmail
    (cd_name cd +:+ " recommends you read " +:+ Post.title post)
    ("Read " +:+ Post.title post +:+ " at " +:+
     build_absolute_uri request (get_absolute_url post) +:+ LF +:+ LF +:+
     cd_name cd +:+ "'s comments: " +:+ cd_comments cd)
    "danylov.lv@gmail.com"
    [cd_to cd].

(** The row that [post_comment] inserts for a post and the cleaned form
    data. *)
Definition new_comment (now : datetime.t) (db : DB) (post : Post.t)
    (cd : CommentData) : Comment.t :=
  Comment.mk (Some (next_id (comments db))) (Some (Post.id post))
    (cd_author cd) (cd_author_email cd) (cd_body cd) (Some now) true.

(** The number of the page that [post_list] settles on for a list of
    posts and the value of the page parameter. *)
Definition resolved_number {A} (int_of_str : string → option Z) (l : list A)
    (page_number : pyval) : Z :=
  match Paginator.to_int int_of_str page_number with
  | Raise _ => 1
  | Ok n =>
      if bool_decide (1 ≤ n ≤ Paginator.num_pages (Paginator.mk l 3)) then n
      else Paginator.num_pages (Paginator.mk l 3)
  end.

(** [u] occurs in [s]. *)
Definition contains (s u : string) : Prop :=
  ∃ pre suf, s = pre +:+ u +:+ suf.

(** ** Instances of the external collaborators

    The views are parametric in what the framework, the database and
    blog/forms.py supply.  The instances below are used to run the views
    on concrete requests. *)

Module Fixture.

(** *** [int] on a string: an optional sign and ASCII decimal digits *)

Definition digit (c : ascii) : option Z :=
  let n := Z.of_nat (Ascii.nat_of_ascii c) in
  if (48 <=? n) && (n <=? 57) then Some (n - 48) else None.

Fixpoint digits (s : string) (acc : Z) : option Z :=
  match s with
  | EmptyString => Some acc
  | String c s' => d ← digit c; digits s' (10 * acc + d)
  end.

Definition unsigned (s : string) : option Z :=
  match s with
  | EmptyString => None
  | _ => digits s 0
  end.

Definition int_of_str (s : string) : option Z :=
  match s with
  | String "-" s' => Z.opp <$> unsigned s'
  | String "+" s' => unsigned s'
  | _ => unsigned s
  end.

(** *** Trigram similarity, as pg_trgm computes it

    A text is lower-cased and cut into words of letters and digits; a
    word is padded with two blanks in front and one behind; the
    similarity of two texts is the number of trigrams they share over
    the number of trigrams of either, divided in single precision. *)

Definition is_alnum (c : ascii) : bool :=
  let n := Ascii.nat_of_ascii c in
  ((48 <=? n) && (n <=? 57) || (65 <=? n) && (n <=? 90)
   || (97 <=? n) && (n <=? 122))%nat.

Definition lower (c : ascii) : ascii :=
  let n := Ascii.nat_of_ascii c in
  if ((65 <=? n) && (n <=? 90))%nat then Ascii.ascii_of_nat (n + 32) else c.

Definition flush (cur : list ascii) (ws : list (list ascii)) : list (list ascii) :=
  match cur with
  | [] => ws
  | _ => reverse cur :: ws
  end.

Fixpoint words (s : string) (cur : list ascii) : list (list ascii) :=
  match s with
  | EmptyString => flush cur []
  | String c s' =>
      if is_alnum c then words s' (lower c :: cur)
      else flush cur (words s' [])
  end.

Definition trigram : Type := ascii * ascii * ascii.

Fixpoint trigrams_of (w : list ascii) : list trigram :=
  match w with
  | a :: t =>
      match t with
      | b :: c :: _ => (a, b, c) :: trigrams_of t
      | _ => []
      end
  | [] => []
  end.

Definition blank : ascii := Ascii.ascii_of_nat 32.

Definition trgm (s : string) : list trigram :=
  remove_dups (words s [] ≫= λ w, trigrams_of (blank :: blank :: w ++ [blank])).

Definition TrigramSimilarity (field query : string) : Q :=
  let a := trgm field in
  let b := trgm query in
  let shared := filter (λ t, t ∈ b) a in
  let either := a ++ filter (λ t, t ∉ a) b in
  float.float4 (Z.of_nat (length shared) # Pos.of_nat (length either)).

(** *** URLs *)

Definition get_absolute_url (p : Post.t) : string :=
  "/blog/" +:+ Post.slug p +:+ "/".

Definition build_absolute_uri (request : HttpRequest) (location : string) : string :=
  "http://testserver" +:+ location.

(** *** Forms

    Modelled from the spec: blog/forms.py is absent.  The spec leaves the
    checks to the form validator and names these: the comment and share
    forms require their name and address fields (the share comment is
    optional), the search query must not be empty and must fit a length
    bound, which is an argument here. *)

Definition field (d : gmap string string) (k : string) : string :=
  default EmptyString (d !! k).

Definition required (d : gmap string string) (k : string) : forms.ErrorDict :=
  if bool_decide (field d k = EmptyString)
  then [(k, ["This field is required."])] else [].

Definition EmailPostForm (d : gmap string string) : forms.ErrorDict * EmailPostData :=
  (required d "name" ++ required d "email" ++ required d "to",
   mkEmailPostData (field d "name") (field d "email") (field d "to")
     (field d "comments")).

Definition CommentForm (d : gmap string string) : forms.ErrorDict * CommentData :=
  (required d "name" ++ required d "email" ++ required d "body",
   mkCommentData (field d "name") (field d "email") (field d "body")).

Definition SearchForm (max_length : nat) (d : gmap string string)
    : forms.ErrorDict * string :=
  (required d "query" ++
   (if bool_decide (String.length (field d "query") ≤ max_length)%nat then []
    else [("query", ["Ensure this value has at most max_length characters."])]),
   field d "query").

(** *** A small blog *)

Definition date (y m d : Z) : datetime.t := datetime.mk y m d 12 0 0 0.

(** The time of the requests. *)
Definition now : datetime.t := date 2024 6 1.

Definition hello : Post.t :=
  Post.mk 1 "Hello Django" "hello" 1 "django is a web framework"
    (date 2024 3 1) (date 2024 3 1) (date 2024 3 1) Post.PUBLISHED {[1; 2]}.

Definition draft : Post.t :=
  Post.mk 2 "django" "notes" 1 "django"
    (date 2024 3 2) (date 2024 3 2) (date 2024 3 2) Post.DRAFT {[1]}.

(** Status PUBLISHED, to appear in 2030. *)
Definition scheduled : Post.t :=
  Post.mk 3 "Coming soon" "soon" 1 "a post set to appear later"
    (date 2030 1 1) (date 2024 3 3) (date 2024 3 3) Post.PUBLISHED {[2]}.

Definition django : Post.t :=
  Post.mk 4 "django" "django" 1 "django"
    (date 2024 4 1) (date 2024 4 1) (date 2024 4 1) Post.PUBLISHED {[1; 2; 3]}.

Definition orm : Post.t :=
  Post.mk 5 "The ORM" "orm" 1 "queries and managers"
    (date 2024 4 2) (date 2024 4 2) (date 2024 4 2) Post.PUBLISHED {[2]}.

Definition forms_post : Post.t :=
  Post.mk 6 "Forms" "forms" 1 "validation of input"
    (date 2024 4 3) (date 2024 4 3) (date 2024 4 3) Post.PUBLISHED {[1]}.

Definition mail : Post.t :=
  Post.mk 7 "Sending mail" "mail" 1 "the mail gateway"
    (date 2024 4 4) (date 2024 4 4) (date 2024 4 4) Post.PUBLISHED {[1; 2]}.

Definition paging : Post.t :=
  Post.mk 8 "Paging" "paging" 1 "three posts a page"
    (date 2024 4 5) (date 2024 4 5) (date 2024 4 5) Post.PUBLISHED {[4]}.

(** Another post with the publish date and the slug of [hello]; it is
    not in the sample blog. *)
Definition reposted : Post.t :=
  Post.mk 9 "Hello again" "hello" 2 "the same slug on the same day"
    (date 2024 3 1) (date 2024 3 1) (date 2024 3 1) Post.PUBLISHED ∅.

Definition blog : DB :=
  mkDB [hello; draft; scheduled; django; orm; forms_post; mail; paging]
    [Tag.mk 1 "Python" "python"; Tag.mk 2 "Web" "web";
     Tag.mk 3 "Search" "search"; Tag.mk 4 "Misc" "misc"]
    [Comment.mk (Some 1) (Some 1) "Ann" "ann@example.com" "Nice"
       (Some (date 2024 3 5)) true;
     Comment.mk (Some 2) (Some 1) "Bob" "bob@example.com" "Spam"
       (Some (date 2024 3 6)) false].

Definition request (m : string) (get post : list (string * string)) : HttpRequest :=
  mkRequest m (list_to_map get) (list_to_map post).

Definition share_request : HttpRequest :=
  request "POST" []
    [("name", "Ann"); ("email", "ann@example.com");
     ("to", "bob@example.com"); ("comments", "read it")].

Definition comment_request : HttpRequest :=
  request "POST" []
    [("name", "Ann"); ("email", "ann@example.com"); ("body", "Hi")].

(** A comment without the author's name. *)
Definition nameless_comment_request : HttpRequest :=
  request "POST" [] [("email", "ann@example.com"); ("body", "Hi")].

(** Two comments on [hello], and a table that holds the later one
    first. *)
Definition written_first : Comment.t :=
  Comment.mk (Some 2) (Some 1) "Bob" "bob@example.com" "written first"
    (Some (date 2024 3 5)) true.

Definition written_second : Comment.t :=
  Comment.mk (Some 1) (Some 1) "Ann" "ann@example.com" "written second"
    (Some (date 2024 3 6)) true.

Definition thread : DB :=
  mkDB [hello] [] [written_second; written_first].

End Fixture.

(** * Properties of the views *)

(** ** Orders *)

Lemma lex_leb_total a b :
  datetime.lex_leb a b = true ∨ datetime.lex_leb b a = true.
Proof.
  revert b. induction a as [|x a IH]; intros [|y b]; simpl; auto.
  destruct (IH b) as [H|H]; rewrite H;
    destruct (Z.ltb_spec x y), (Z.ltb_spec y x),
      (Z.eqb_spec x y), (Z.eqb_spec y x); simpl; auto; lia.
Qed.

Lemma lex_leb_trans a b c :
  datetime.lex_leb a b = true → datetime.lex_leb b c = true →
  datetime.lex_leb a c = true.
Proof.
  revert b c. induction a as [|x a IH]; intros [|y b] [|z c]; simpl; auto;
    try discriminate.
  intros Hab Hbc.
  apply orb_true_iff in Hab as [Hab|Hab], Hbc as [Hbc|Hbc];
    rewrite ?andb_true_iff in *; apply orb_true_iff.
  - left. apply Z.ltb_lt. apply Z.ltb_lt in Hab, Hbc. lia.
  - left. destruct Hbc as [Hbc _]. apply Z.ltb_lt.
    apply Z.ltb_lt in Hab. apply Z.eqb_eq in Hbc. lia.
  - left. destruct Hab as [Hab _]. apply Z.ltb_lt.
    apply Z.ltb_lt in Hbc. apply Z.eqb_eq in Hab. lia.
  - right. destruct Hab as [Hab Hab'], Hbc as [Hbc Hbc'].
    apply Z.eqb_eq in Hab, Hbc. apply andb_true_iff.
    split; [apply Z.eqb_eq; lia|eauto].
Qed.

Global Instance datetime_le_total : Total datetime.le.
Proof. intros a b. apply lex_leb_total. Qed.

Global Instance datetime_le_trans : Transitive datetime.le.
Proof. intros a b c. apply lex_leb_trans. Qed.

Global Instance same_tags_publish_desc_total : Total same_tags_publish_desc.
Proof.
  intros a b. unfold same_tags_publish_desc.
  destruct (total datetime.le (Post.publish (sp_post a)) (Post.publish (sp_post b)));
    destruct (lt_eq_lt_dec (same_tags a) (same_tags b)) as [[?|?]|?];
    auto; right; right; auto.
Qed.

Global Instance same_tags_publish_desc_trans : Transitive same_tags_publish_desc.
Proof.
  intros a b c [Hab|[Hab Hab']] [Hbc|[Hbc Hbc']]; unfold same_tags_publish_desc.
  - left. lia.
  - left. lia.
  - left. lia.
  - right. split; [lia|]. by etrans.
Qed.

Global Instance similarity_desc_total : Total similarity_desc.
Proof.
  intros a b. unfold similarity_desc.
  destruct (Qlt_le_dec (similarity a) (similarity b)) as [H|H]; auto.
  right. by apply Qlt_le_weak.
Qed.

Global Instance similarity_desc_trans : Transitive similarity_desc.
Proof. intros a b c Hab Hbc. unfold similarity_desc in *. by eapply Qle_trans. Qed.

Global Instance created_le_total : Total created_le.
Proof.
  intros a b. unfold created_le.
  destruct (Comment.created a) as [x|], (Comment.created b) as [y|]; auto.
  apply (total datetime.le).
Qed.

Global Instance created_le_trans : Transitive created_le.
Proof.
  intros a b c. unfold created_le.
  destruct (Comment.created a) as [x|], (Comment.created b) as [y|],
    (Comment.created c) as [z|]; try done.
  apply (transitivity (R := datetime.le)).
Qed.

(** ** Rounding *)

Lemma round_half_even_nonneg (q : Q) : (0 <= q)%Q → 0 ≤ float.round_half_even q.
Proof.
  intros Hq. unfold float.round_half_even.
  assert (0 ≤ Qfloor q) as Hz.
  { rewrite <-(Qfloor_Z 0). by apply Qfloor_resp_le. }
  destruct (_ ?= _)%Q; [destruct (Z.even _)|..]; lia.
Qed.

Lemma round_half_even_le (q : Q) (n : Z) :
  (q <= inject_Z n)%Q → float.round_half_even q ≤ n.
Proof.
  intros Hq. unfold float.round_half_even.
  assert (Qfloor q ≤ n) as Hz.
  { rewrite <-(Qfloor_Z n). by apply Qfloor_resp_le. }
  assert ((0 < q - inject_Z (Qfloor q))%Q → Qfloor q + 1 ≤ n) as Hup.
  { intros Hpos. assert (Qfloor q < n); [|lia].
    apply Z.nle_gt. intros Hle.
    assert (inject_Z n <= inject_Z (Qfloor q))%Q as Hle'
      by (by rewrite <-Zle_Qle).
    apply (Qlt_irrefl (inject_Z (Qfloor q))).
    eapply Qlt_le_trans; [|exact Hle'].
    eapply Qlt_le_trans; [|exact Hq].
    apply (Qplus_lt_l _ _ (- inject_Z (Qfloor q))).
    rewrite Qplus_opp_r. exact Hpos. }
  destruct (_ ?= _)%Q eqn:E.
  - apply Qeq_alt in E. destruct (Z.even _); [lia|].
    apply Hup. rewrite E. reflexivity.
  - lia.
  - apply Qgt_alt in E. apply Hup.
    eapply Qlt_trans; [|exact E]. reflexivity.
Qed.

Lemma ilog2_le (x : Q) : (0 < x)%Q → (2 ^ float.ilog2 x <= x)%Q.
Proof.
  intros Hx. unfold float.ilog2.
  destruct (Qle_bool _ x) eqn:E; [by apply Qle_bool_iff|]. clear E.
  destruct x as [n d]. cbn [Qnum Qden].
  assert (0 < n) as Hn by (unfold Qlt in Hx; simpl in Hx; lia).
  pose proof (Z.log2_spec n Hn) as [Hn1 _].
  pose proof (Z.log2_spec (Zpos d) ltac:(lia)) as [_ Hd2].
  pose proof (Z.log2_nonneg n) as Hln.
  pose proof (Z.log2_nonneg (Zpos d)) as Hld.
  replace (Z.log2 n - Z.log2 (Z.pos d) - 1)
    with (Z.log2 n - Z.succ (Z.log2 (Z.pos d))) by lia.
  rewrite Qpower_minus by discriminate.
  rewrite <-!(Zpower_Qpower 2) by lia.
  set (a := 2 ^ Z.log2 n) in *. set (b := 2 ^ Z.succ (Z.log2 (Z.pos d))) in *.
  assert (0 < b) as Hb by lia.
  apply Qle_shift_div_r; [by rewrite <-(Zlt_Qlt 0)|].
  unfold Qle, Qmult, inject_Z. simpl.
  rewrite Z.mul_1_r. nia.
Qed.

Section format_facts.
Variables prec emin : Z.

Lemma round_pos_nonneg (x : Q) : (0 <= x)%Q → (0 <= float.round_pos prec emin x)%Q.
Proof.
  intros Hx. unfold float.round_pos. cbv zeta.
  apply Qmult_le_0_compat; [|by apply Qpower_0_le].
  change 0%Q with (inject_Z 0). rewrite <-Zle_Qle.
  apply round_half_even_nonneg.
  apply Qle_shift_div_l; [by apply Qpower_0_lt|]. by rewrite Qmult_0_l.
Qed.

Lemma round_pos_le (x : Q) (j : Z) :
  1 ≤ prec → emin ≤ j → (0 < x)%Q → (x <= 2 ^ j)%Q →
  (float.round_pos prec emin x <= 2 ^ j)%Q.
Proof.
  intros Hprec Hemin Hx Hxj. unfold float.round_pos. cbv zeta.
  set (e := Z.max _ _).
  assert (float.ilog2 x ≤ j) as Hfl.
  { apply (Qpower_le_compat_l_inv 2); [|reflexivity].
    eapply Qle_trans; [by apply ilog2_le|done]. }
  assert (e ≤ j) as He by (subst e; lia).
  assert (0 < 2 ^ e)%Q as Hpow by (by apply Qpower_0_lt).
  assert (float.round_half_even (x / 2 ^ e) ≤ 2 ^ (j - e)) as Hm.
  { apply round_half_even_le.
    rewrite Zpower_Qpower by lia.
    rewrite Qpower_minus by discriminate.
    apply Qmult_le_compat_r; [done|].
    apply Qinv_le_0_compat. by apply Qlt_le_weak. }
  rewrite Zle_Qle in Hm.
  eapply Qle_trans.
  { apply Qmult_le_compat_r; [exact Hm|by apply Qlt_le_weak]. }
  rewrite Zpower_Qpower by lia. rewrite <-Qpower_plus by discriminate.
  replace (j - e + e) with j by lia. apply Qle_refl.
Qed.

Lemma round_nonneg (x : Q) : (0 <= x)%Q → (0 <= float.round prec emin x)%Q.
Proof.
  intros Hx. unfold float.round.
  destruct (x ?= 0)%Q eqn:E.
  - apply Qle_refl.
  - apply Qlt_alt in E. exfalso. by apply (Qlt_not_le _ _ E).
  - by apply round_pos_nonneg.
Qed.

Lemma round_le (x : Q) (j : Z) :
  1 ≤ prec → emin ≤ j → (x <= 2 ^ j)%Q → (float.round prec emin x <= 2 ^ j)%Q.
Proof.
  intros Hprec Hemin Hxj. unfold float.round.
  assert (0 <= 2 ^ j)%Q as Hpow by (by apply Qpower_0_le).
  destruct (x ?= 0)%Q eqn:E.
  - done.
  - apply Qlt_alt in E. eapply Qle_trans; [|exact Hpow].
    apply (Qopp_le_compat 0). apply round_pos_nonneg.
    apply (Qopp_le_compat x 0). by apply Qlt_le_weak.
  - apply Qgt_alt in E. by apply round_pos_le.
Qed.
End format_facts.

Lemma float4_range (x : Q) (j : Z) :
  -149 ≤ j → (0 <= x)%Q → (x <= 2 ^ j)%Q →
  (0 <= float.float4 x)%Q ∧ (float.float4 x <= 2 ^ j)%Q.
Proof.
  intros Hj Hx Hxj. split; [by apply round_nonneg|by apply round_le].
Qed.

Lemma ilog2_lt (x : Q) : (0 < x)%Q → (x < 2 ^ (float.ilog2 x + 1))%Q.
Proof.
  intros Hx. unfold float.ilog2.
  destruct (Qle_bool _ x) eqn:E.
  - clear E. destruct x as [n d]. cbn [Qnum Qden].
    assert (0 < n) as Hn by (unfold Qlt in Hx; simpl in Hx; lia).
    pose proof (Z.log2_spec n Hn) as [_ Hn2].
    pose proof (Z.log2_spec (Zpos d) ltac:(lia)) as [Hd1 _].
    pose proof (Z.log2_nonneg n) as Hln.
    pose proof (Z.log2_nonneg (Zpos d)) as Hld.
    replace (Z.log2 n - Z.log2 (Z.pos d) + 1)
      with (Z.succ (Z.log2 n) - Z.log2 (Z.pos d)) by lia.
    rewrite Qpower_minus by discriminate.
    rewrite <-!(Zpower_Qpower 2) by lia.
    set (a := 2 ^ Z.succ (Z.log2 n)) in *. set (b := 2 ^ Z.log2 (Z.pos d)) in *.
    assert (0 < b) as Hb by lia.
    apply Qlt_shift_div_l; [by rewrite <-(Zlt_Qlt 0)|].
    unfold Qlt, Qmult, inject_Z. simpl.
    rewrite Z.mul_1_r. nia.
  - replace (Z.log2 (Qnum x) - Z.log2 (Z.pos (Qden x)) - 1 + 1)
      with (Z.log2 (Qnum x) - Z.log2 (Z.pos (Qden x))) by lia.
    apply Qnot_le_lt. intros H%Qle_bool_iff. congruence.
Qed.

(** A single-precision number is at least the Python float 0.1 exactly
    when it is at least 0.1: no single-precision number lies between the
    two. *)
Lemma float4_ge_one_tenth (x : Q) :
  (similarity_gte <= float.float4 x)%Q ↔ (1 # 10 <= float.float4 x)%Q.
Proof.
  assert (similarity_gte == 3602879701896397 # 36028797018963968)%Q
    as Hd by (vm_compute; reflexivity).
  rewrite Hd. split.
  { intros H. eapply Qle_trans; [|exact H]. vm_compute. discriminate. }
  unfold float.float4, float.round.
  destruct (x ?= 0)%Q eqn:E.
  - intros H. exfalso. revert H. vm_compute. auto.
  - apply Qlt_alt in E. intros H. exfalso.
    apply (Qlt_not_le 0 (1 # 10)); [reflexivity|].
    eapply Qle_trans; [exact H|].
    apply (Qopp_le_compat 0). apply round_pos_nonneg.
    apply (Qopp_le_compat x 0). by apply Qlt_le_weak.
  - apply Qgt_alt in E. unfold float.round_pos. cbv zeta.
    set (e := Z.max (float.ilog2 x - (24 - 1)) (-149)).
    set (m := float.round_half_even (x / 2 ^ e)).
    assert (0 < 2 ^ e)%Q as Hpow by (by apply Qpower_0_lt).
    assert (0 ≤ m) as Hm0.
    { apply round_half_even_nonneg.
      apply Qle_shift_div_l; [done|]. rewrite Qmult_0_l. by apply Qlt_le_weak. }
    destruct (Z.le_gt_cases (-55) e) as [He|He].
    + (* the number is a multiple of 2^-55 *)
      assert (inject_Z m * 2 ^ e == inject_Z (m * 2 ^ (e + 55)) / inject_Z (2 ^ 55))%Q
        as Hv.
      { rewrite inject_Z_mult, !Zpower_Qpower by lia.
        replace e with ((e + 55) - 55) at 1 by lia.
        rewrite Qpower_minus by discriminate. unfold Qdiv.
        apply Qmult_assoc. }
      rewrite Hv. set (n := m * 2 ^ (e + 55)).
      change (inject_Z (2 ^ 55)) with (36028797018963968 # 1).
      unfold Qle, Qdiv, Qmult, Qinv, inject_Z. cbn. lia.
    + (* the number is below 2^-31 *)
      intros H. exfalso.
      assert (m ≤ 2 ^ 24) as Hm.
      { apply round_half_even_le. rewrite Zpower_Qpower by lia.
        apply Qle_shift_div_r; [done|].
        rewrite <-Qpower_plus by discriminate.
        eapply Qle_trans; [apply Qlt_le_weak, ilog2_lt; done|].
        apply Qpower_le_compat_l; [subst e; lia|discriminate]. }
      apply (Qlt_not_le (2 ^ (-31)) (1 # 10)); [reflexivity|].
      eapply Qle_trans; [exact H|].
      rewrite Zle_Qle in Hm.
      eapply Qle_trans.
      { apply Qmult_le_compat_r; [exact Hm|by apply Qlt_le_weak]. }
      rewrite Zpower_Qpower by lia. rewrite <-Qpower_plus by discriminate.
      apply Qpower_le_compat_l; [lia|discriminate].
Qed.

(** ** Fetching one row *)

Section get_facts.
Context {A : Type} (P : A → Prop) `{∀ x, Decision (P x)}.

Lemma get_object_or_404_cases (qs : list A) :
  (filter P qs = [] ∧ get_object_or_404 P qs = Raise Http404) ∨
  (∃ x, filter P qs = [x] ∧ get_object_or_404 P qs = Ok x) ∨
  ((2 ≤ length (filter P qs))%nat ∧
   get_object_or_404 P qs = Raise MultipleObjectsReturned).
Proof.
  unfold get_object_or_404, get.
  destruct (filter P qs) as [|x [|y l]]; simpl; eauto.
  right; right. split; [lia|done].
Qed.

Lemma get_object_or_404_Ok (qs : list A) x :
  get_object_or_404 P qs = Ok x ↔ filter P qs = [x].
Proof.
  destruct (get_object_or_404_cases qs) as [[-> ->]|[[y [-> ->]]|[Hl ->]]];
    split; try done; try congruence.
  intros E. rewrite E in Hl. simpl in Hl. lia.
Qed.

Lemma get_object_or_404_Http404 (qs : list A) :
  get_object_or_404 P qs = Raise Http404 ↔ filter P qs = [].
Proof.
  destruct (get_object_or_404_cases qs) as [[-> ->]|[[y [-> ->]]|[Hl ->]]];
    split; try done.
  intros E. rewrite E in Hl. simpl in Hl. lia.
Qed.

Lemma filter_nil_iff (l : list A) :
  filter P l = [] ↔ ∀ x, x ∈ l → ¬ P x.
Proof.
  split.
  - intros Hnil x Hx HP.
    assert (x ∈ filter P l) as Hin by (apply list_elem_of_filter; done).
    rewrite Hnil in Hin. by apply not_elem_of_nil in Hin.
  - intros Hno. destruct (filter P l) as [|x l'] eqn:E; [done|].
    assert (x ∈ filter P l) as Hin by (rewrite E; left).
    apply list_elem_of_filter in Hin as [HP Hx]. by destruct (Hno x).
Qed.

Lemma filter_singleton (l : list A) x :
  filter P l = [x] → x ∈ l ∧ P x ∧ ∀ y, y ∈ l → P y → y = x.
Proof.
  intros E.
  assert (x ∈ filter P l) as Hin by (rewrite E; left).
  apply list_elem_of_filter in Hin as [HP Hx]. split_and!; [done..|].
  intros y Hy HPy.
  assert (y ∈ filter P l) as Hin by (apply list_elem_of_filter; done).
  rewrite E in Hin. by apply list_elem_of_singleton in Hin.
Qed.

End get_facts.

(** Keys are unique, so a lookup by id selects at most one row. *)
Lemma id_lookup_at_most_one (post_id : Z) (l : list Post.t) :
  NoDup (Post.id <$> l) → (length (filter (id_lookup post_id) l) ≤ 1)%nat.
Proof.
  induction l as [|p l IH]; simpl; [lia|].
  intros Hnd. apply NoDup_cons in Hnd as [Hp Hnd].
  rewrite filter_cons. destruct (decide (id_lookup post_id p)) as [[Hid _]|_].
  - assert (filter (id_lookup post_id) l = []) as ->; [|simpl; lia].
    apply filter_nil_iff. intros q Hq [Hqid _]. apply Hp.
    apply list_elem_of_fmap. exists q. split; [congruence|done].
  - by apply IH.
Qed.

(** ** Post Detail: the lookup *)

Lemma year_lookup_bounds_in_range (year : Z) :
  1 ≤ year ≤ 9999 → year_lookup_bounds year = Ok ().
Proof.
  intros H. unfold year_lookup_bounds.
  rewrite bool_decide_eq_true_2 by lia. by rewrite bool_decide_eq_true_2.
Qed.

Lemma year_lookup_bounds_Ok (year : Z) (u : unit) :
  year_lookup_bounds year = Ok u → 1 ≤ year ≤ 9999.
Proof.
  unfold year_lookup_bounds. repeat case_bool_decide; done.
Qed.

Lemma detail_get_in_range year month day post_slug db :
  1 ≤ year ≤ 9999 →
  detail_get year month day post_slug db
    = get_object_or_404 (detail_lookup year month day post_slug) (posts db).
Proof.
  intros H. unfold detail_get. by rewrite year_lookup_bounds_in_range.
Qed.

Lemma detail_get_Ok year month day post_slug db p :
  detail_get year month day post_slug db = Ok p →
  1 ≤ year ≤ 9999 ∧
  filter (detail_lookup year month day post_slug) (posts db) = [p].
Proof.
  unfold detail_get, Post_objects.
  destruct (year_lookup_bounds year) as [u|e] eqn:E; [|done].
  simpl. intros G. split; [by eapply year_lookup_bounds_Ok|].
  by apply get_object_or_404_Ok.
Qed.

(** [post_detail] after its lookup. *)
Lemma post_detail_unfold CommentForm now db request year month day post_slug :
  post_detail CommentForm now db request year month day post_slug =
    match detail_get year month day post_slug db with
    | Ok post =>
        Ok (Render "blog/post/detail.html"
              (mkDetailContext post
                 (merge_sort created_le
                    (filter (λ c, Comment.post c = Some (Post.id post) ∧
                                  Comment.active c = true)
                       (comments db)))
                 (forms.unbound CommentForm)
                 (similar_posts_of now db post)))
    | Raise e => Raise e
    end.
Proof. unfold post_detail. by destruct (detail_get _ _ _ _ _). Qed.

(** The lookup of [post_detail] does not look at the clock: the post it
    finds may carry a publish timestamp of any time. *)
Lemma post_detail_ignores_clock CommentForm now now' db request y m d s :
  match post_detail CommentForm now db request y m d s,
        post_detail CommentForm now' db request y m d s with
  | Ok (Render _ ctx), Ok (Render _ ctx') => detail_post ctx = detail_post ctx'
  | Raise e, Raise e' => e = e'
  | _, _ => False
  end.
Proof.
  rewrite !post_detail_unfold.
  destruct (detail_get _ _ _ _ _) as [p|e]; simpl; done.
Qed.

(** C1, the claim as worded, fails: on the sample blog no post that is
    published (status PUBLISHED and publish timestamp not after the time
    of the request) has the date 2030-01-01 and the slug "soon", yet the
    request for (2030, 1, 1, "soon") is answered, with a post whose
    publish timestamp lies in the future. *)
Lemma post_detail_returns_future_post :
  (∀ p, p ∈ posts Fixture.blog →
     ¬ (is_published Fixture.now p ∧
        datetime.year (Post.publish p) = 2030 ∧
        datetime.month (Post.publish p) = 1 ∧
        datetime.day (Post.publish p) = 1 ∧
        Post.slug p = "soon")) ∧
  match post_detail Fixture.CommentForm Fixture.now Fixture.blog
          (Fixture.request "GET" [] []) 2030 1 1 "soon" with
  | Ok (Render _ ctx) =>
      detail_post ctx = Fixture.scheduled ∧
      ¬ is_published Fixture.now (detail_post ctx)
  | _ => False
  end.
Proof.
  split.
  - apply Forall_forall. unfold Fixture.blog. simpl.
    repeat (apply Forall_cons; split); [..|by apply Forall_nil];
      intros [[_ Hle] (Hy & _ & _ & Hs)]; try discriminate Hs.
    vm_compute in Hle. discriminate.
  - vm_compute. split; [reflexivity|]. intros [_ Hle]. discriminate.
Qed.

(** C1, amended: for a year from 1 to 9999, Post Detail returns the one
    post with status PUBLISHED whose publish date is the given year, month
    and day and whose slug is the given one, whatever the time of the
    request; it fails with NotFound exactly when no post has that status,
    date and slug. *)
Theorem post_detail_fetch CommentForm now db request year month day post_slug :
  1 ≤ year ≤ 9999 →
  let response :=
    post_detail CommentForm now db request year month day post_slug in
  (∀ p, filter (detail_lookup year month day post_slug) (posts db) = [p] →
     ∃ ctx, response = Ok (Render "blog/post/detail.html" ctx) ∧
            detail_post ctx = p) ∧
  (∀ t ctx, response = Ok (Render t ctx) →
     detail_post ctx ∈ posts db ∧
     Post.status (detail_post ctx) = Post.PUBLISHED ∧
     datetime.year (Post.publish (detail_post ctx)) = year ∧
     datetime.month (Post.publish (detail_post ctx)) = month ∧
     datetime.day (Post.publish (detail_post ctx)) = day ∧
     Post.slug (detail_post ctx) = post_slug ∧
     filter (detail_lookup year month day post_slug) (posts db)
       = [detail_post ctx]) ∧
  (response = Raise Http404 ↔
   ∀ q, q ∈ posts db → ¬ detail_lookup year month day post_slug q).
Proof.
  intros Hyear response. subst response.
  rewrite post_detail_unfold, (detail_get_in_range _ _ _ _ _ Hyear).
  destruct (get_object_or_404_cases (detail_lookup year month day post_slug)
              (posts db)) as [[E ->]|[[x [E ->]]|[Hl ->]]]; simpl.
  - split_and!.
    + intros p Hp. congruence.
    + intros t ctx [=].
    + split; [|done]. intros _. by apply (proj1 (filter_nil_iff _ _)).
  - split_and!.
    + intros p Hp. eexists. split; [done|]. simpl. congruence.
    + intros t ctx [= <- <-]. simpl.
      destruct (filter_singleton _ _ _ E) as (Hin & Hlk & _).
      destruct Hlk as (? & ? & ? & ? & ?). done.
    + split; [done|]. intros Hno. apply (proj2 (filter_nil_iff _ _)) in Hno. congruence.
  - split_and!.
    + intros p Hp. rewrite Hp in Hl. simpl in Hl. lia.
    + intros t ctx [=].
    + split; [done|]. intros Hno. apply (proj2 (filter_nil_iff _ _)) in Hno.
      rewrite Hno in Hl. simpl in Hl. lia.
Qed.

Lemma post_detail_fetch_witness :
  1 ≤ 2024 ≤ 9999 ∧
  filter (detail_lookup 2024 3 1 "hello") (posts Fixture.blog) = [Fixture.hello] ∧
  (∃ ctx,
     post_detail Fixture.CommentForm Fixture.now Fixture.blog
       (Fixture.request "GET" [] []) 2024 3 1 "hello"
     = Ok (Render "blog/post/detail.html" ctx) ∧
     detail_post ctx = Fixture.hello) ∧
  post_detail Fixture.CommentForm Fixture.now Fixture.blog
    (Fixture.request "GET" [] []) 2024 3 2 "hello" = Raise Http404.
Proof.
  assert (1 ≤ 2024 ≤ 9999) as Hyear by lia.
  split; [exact Hyear|]. split; [reflexivity|]. split.
  - apply (post_detail_fetch Fixture.CommentForm Fixture.now Fixture.blog
             (Fixture.request "GET" [] []) 2024 3 1 "hello" Hyear).
    reflexivity.
  - apply (post_detail_fetch Fixture.CommentForm Fixture.now Fixture.blog
             (Fixture.request "GET" [] []) 2024 3 2 "hello" Hyear).
    apply Forall_forall. unfold Fixture.blog. simpl.
    repeat (apply Forall_cons; split); [..|by apply Forall_nil];
      intros (_ & _ & _ & Hd & Hs); try discriminate Hs; discriminate Hd.
Defined.

(** With several matching rows the lookup raises
    [MultipleObjectsReturned], which is not NotFound. *)
Lemma post_detail_ambiguous CommentForm now db request year month day post_slug :
  1 ≤ year ≤ 9999 →
  (2 ≤ length (filter (detail_lookup year month day post_slug) (posts db)))%nat →
  post_detail CommentForm now db request year month day post_slug
    = Raise MultipleObjectsReturned.
Proof.
  intros Hyear Hl.
  rewrite post_detail_unfold, (detail_get_in_range _ _ _ _ _ Hyear).
  destruct (get_object_or_404_cases (detail_lookup year month day post_slug)
              (posts db)) as [[E ->]|[[x [E ->]]|[_ ->]]]; simpl; [| |done];
    rewrite E in Hl; simpl in Hl; lia.
Qed.


(** ** Share and Comment: the lookup *)

Section share_comment_facts.
Variable get_absolute_url : Post.t → string.
Variable build_absolute_uri : HttpRequest → string → string.
Variable EmailPostForm : gmap string string → forms.ErrorDict * EmailPostData.
Variable transport_accepts : EmailMessage → bool.
Variable CommentForm : gmap string string → forms.ErrorDict * CommentData.

Local Abbreviation share :=
  (post_share get_absolute_url build_absolute_uri EmailPostForm transport_accepts).
Local Abbreviation email := (share_email get_absolute_url build_absolute_uri).

Lemma post_share_not_fetched db request post_id outbox e :
  get_object_or_404 (id_lookup post_id) (posts db) = Raise e →
  share db request post_id outbox = (Raise e, outbox).
Proof.
  intros E. unfold post_share, mbind, io_bind, lift, Post_objects.
  by rewrite E.
Qed.

Lemma post_share_fetched db request post_id outbox post :
  get_object_or_404 (id_lookup post_id) (posts db) = Ok post →
  share db request post_id outbox =
    if bool_decide (method request = "POST") then
      let form := forms.bound EmailPostForm (POST request) in
      if forms.is_valid form then
        let m := email request post (forms.cleaned_data form) in
        if transport_accepts m then
          (Ok (Render "blog/post/share.html" (mkShareContext post form true)),
           outbox ++ [m])
        else (Raise SMTPException, outbox)
      else
        (Ok (Render "blog/post/share.html" (mkShareContext post form false)),
         outbox)
    else
      (Ok (Render "blog/post/share.html"
             (mkShareContext post (forms.unbound EmailPostForm) false)),
       outbox).
Proof.
  intros E. unfold post_share, mbind, io_bind, lift, Post_objects.
  rewrite E. case_bool_decide; [|done].
  destruct (forms.is_valid _); [|done]. simpl.
  unfold send_mail, share_email. by destruct (transport_accepts _).
Qed.

Lemma post_comment_not_POST now db request post_id :
  method request ≠ "POST" →
  post_comment CommentForm now post_id request db
    = (Ok (HttpResponseNotAllowed ["POST"]), db).
Proof.
  intros Hm. unfold post_comment, require_POST.
  rewrite bool_decide_eq_false_2; [done|].
  by intros ?%list_elem_of_singleton.
Qed.

Lemma post_comment_not_fetched now db request post_id e :
  method request = "POST" →
  get_object_or_404 (id_lookup post_id) (posts db) = Raise e →
  post_comment CommentForm now post_id request db = (Raise e, db).
Proof.
  intros Hm E. unfold post_comment, require_POST.
  rewrite bool_decide_eq_true_2; [|by apply list_elem_of_singleton].
  unfold mbind, io_bind, gets, lift, Post_objects. by rewrite E.
Qed.

Lemma post_comment_fetched now db request post_id post :
  method request = "POST" →
  get_object_or_404 (id_lookup post_id) (posts db) = Ok post →
  post_comment CommentForm now post_id request db =
    let form := forms.bound CommentForm (POST request) in
    if forms.is_valid form then
      let c := new_comment now db post (forms.cleaned_data form) in
      (Ok (Render "blog/post/comment.html"
             (mkCommentContext post form (Some c))),
       mkDB (posts db) (tags db) (comments db ++ [c]))
    else
      (Ok (Render "blog/post/comment.html" (mkCommentContext post form None)),
       db).
Proof.
  intros Hm E. unfold post_comment, require_POST.
  rewrite bool_decide_eq_true_2; [|by apply list_elem_of_singleton].
  unfold mbind, io_bind, gets, lift, Post_objects. rewrite E. simpl.
  by destruct (forms.is_valid _).
Qed.

End share_comment_facts.

(** C2, the claim as worded, fails: post 3 of the sample blog has status
    PUBLISHED and a publish timestamp in the future, so no published post
    has id 3; Share and Comment do not fail with NotFound but proceed on
    it.  And a GET to Comment for an id that no post has is answered with
    MethodNotAllowed, not with NotFound. *)
Lemma share_comment_proceed_on_future_post :
  (∀ p, p ∈ posts Fixture.blog →
     ¬ (Post.id p = 3 ∧ is_published Fixture.now p)) ∧
  match post_share Fixture.get_absolute_url Fixture.build_absolute_uri
          Fixture.EmailPostForm (λ _, true) Fixture.blog
          (Fixture.request "GET" [] []) 3 [] with
  | (Ok (Render _ ctx), _) => share_post ctx = Fixture.scheduled
  | _ => False
  end ∧
  match post_comment Fixture.CommentForm Fixture.now 3
          (Fixture.request "POST" []
             [("name", "Ann"); ("email", "ann@example.com"); ("body", "Hi")])
          Fixture.blog with
  | (Ok (Render _ ctx), db') =>
      comment_post ctx = Fixture.scheduled ∧
      length (comments db') = S (length (comments Fixture.blog))
  | _ => False
  end ∧
  (∀ p, p ∈ posts Fixture.blog → Post.id p ≠ 99) ∧
  (post_comment Fixture.CommentForm Fixture.now 99
     (Fixture.request "GET" [] []) Fixture.blog).1
    = Ok (HttpResponseNotAllowed ["POST"]).
Proof.
  split_and!.
  - apply Forall_forall. unfold Fixture.blog. simpl.
    repeat (apply Forall_cons; split); [..|by apply Forall_nil];
      intros [Hid [_ Hle]]; try discriminate Hid.
    vm_compute in Hle. discriminate.
  - vm_compute. reflexivity.
  - vm_compute. split; reflexivity.
  - apply Forall_forall. unfold Fixture.blog. simpl.
    repeat (apply Forall_cons; split); [..|by apply Forall_nil]; discriminate.
  - vm_compute. reflexivity.
Qed.

(** C2, amended: for every post id (keys being unique), Share, and Comment
    when requested with POST, fail with NotFound exactly when no post with
    that id has status PUBLISHED, whatever the publish timestamp; when
    such a post exists the operation proceeds on it.  A Comment request
    that is not a POST is answered with MethodNotAllowed before any
    lookup. *)
Theorem share_comment_fetch
    (get_absolute_url : Post.t → string)
    (build_absolute_uri : HttpRequest → string → string)
    (EmailPostForm : gmap string string → forms.ErrorDict * EmailPostData)
    (transport_accepts : EmailMessage → bool)
    (CommentForm : gmap string string → forms.ErrorDict * CommentData)
    (now : datetime.t) (db : DB) (request : HttpRequest) (post_id : Z)
    (outbox : list EmailMessage) :
  NoDup (Post.id <$> posts db) →
  let share :=
    post_share get_absolute_url build_absolute_uri EmailPostForm
      transport_accepts db request post_id outbox in
  let comment := post_comment CommentForm now post_id request db in
  ((∀ p, p ∈ posts db → ¬ id_lookup post_id p) ↔
   share = (Raise Http404, outbox)) ∧
  (method request = "POST" →
   ((∀ p, p ∈ posts db → ¬ id_lookup post_id p) ↔
    comment = (Raise Http404, db))) ∧
  (∀ p, p ∈ posts db → Post.id p = post_id → Post.status p = Post.PUBLISHED →
     match share.1 with
     | Ok (Render _ ctx) => share_post ctx = p
     | Ok (HttpResponseNotAllowed _) => False
     | Raise e => e = SMTPException
     end ∧
     (method request = "POST" →
      ∃ ctx, comment.1 = Ok (Render "blog/post/comment.html" ctx) ∧
             comment_post ctx = p)) ∧
  (method request ≠ "POST" →
   comment = (Ok (HttpResponseNotAllowed ["POST"]), db)).
Proof.
  intros Hnd share comment. subst share comment.
  pose proof (id_lookup_at_most_one post_id _ Hnd) as Hone.
  destruct (get_object_or_404_cases (id_lookup post_id) (posts db))
    as [[E G]|[[x [E G]]|[Hl _]]]; [| |lia].
  - pose proof (proj1 (filter_nil_iff _ _) E) as Hno.
    rewrite (post_share_not_fetched _ _ _ _ _ _ _ _ _ G).
    split_and!.
    + done.
    + intros Hm. by rewrite (post_comment_not_fetched _ _ _ _ _ _ Hm G).
    + intros p Hp Hid Hst. by destruct (Hno p Hp).
    + apply post_comment_not_POST.
  - destruct (filter_singleton _ _ _ E) as (Hx & Hlk & Huniq).
    rewrite (post_share_fetched _ _ _ _ _ _ _ _ _ G).
    split_and!.
    + split.
      * intros Hno. by destruct (Hno x Hx).
      * cbv zeta. repeat case_match; intros [=].
    + intros Hm. rewrite (post_comment_fetched _ _ _ _ _ _ Hm G). split.
      * intros Hno. by destruct (Hno x Hx).
      * cbv zeta. case_match; intros [=].
    + intros p Hp Hid Hst. rewrite (Huniq p Hp (conj Hid Hst)). split.
      * cbv zeta.
        destruct (bool_decide (method request = "POST"));
          [destruct (forms.is_valid _); [destruct (transport_accepts _)|]|];
          simpl; done.
      * intros Hm. rewrite (post_comment_fetched _ _ _ _ _ _ Hm G). cbv zeta.
        case_match; eexists; split; simpl; done.
    + apply post_comment_not_POST.
Qed.

Lemma share_comment_fetch_witness :
  NoDup (Post.id <$> posts Fixture.blog) ∧
  post_share Fixture.get_absolute_url Fixture.build_absolute_uri
    Fixture.EmailPostForm (λ _, true) Fixture.blog
    (Fixture.request "GET" [] []) 2 [] = (Raise Http404, []).
Proof.
  assert (NoDup (Post.id <$> posts Fixture.blog)) as Hnd.
  { apply (bool_decide_unpack _). vm_compute. exact I. }
  split; [exact Hnd|].
  apply (share_comment_fetch Fixture.get_absolute_url Fixture.build_absolute_uri
           Fixture.EmailPostForm (λ _, true) Fixture.CommentForm Fixture.now
           Fixture.blog (Fixture.request "GET" [] []) 2 [] Hnd).
  apply Forall_forall. unfold Fixture.blog. simpl.
  repeat (apply Forall_cons; split); [..|by apply Forall_nil];
    intros [Hid Hst]; discriminate.
Defined.

(** ** Post Detail: similar posts *)

Lemma StronglySorted_lookup {A} (R : relation A) (l : list A) i j a b :
  StronglySorted R l → (i < j)%nat →
  l !! i = Some a → l !! j = Some b → R a b.
Proof.
  intros Hs Hij Ha Hb. rewrite <-(take_drop j l) in Hs.
  apply (StronglySorted_app_1_elem_of _ _ _ _ _ Hs).
  - apply elem_of_take. eauto.
  - apply (list_elem_of_lookup_2 _ 0). rewrite lookup_drop.
    by replace (j + 0)%nat with j by lia.
Qed.

Lemma StronglySorted_take {A} (R : relation A) (l : list A) n :
  StronglySorted R l → StronglySorted R (take n l).
Proof.
  intros Hs. rewrite <-(take_drop n l) in Hs.
  by apply StronglySorted_app_1_l in Hs.
Qed.

(** The count taken over the joined rows is the number of common tags. *)
Lemma count_tags_shared (ids : gset Z) (p : Post.t) :
  count_tags ids p = size (Post.tags p ∩ ids).
Proof.
  unfold count_tags. f_equal. apply set_eq. intros t.
  rewrite elem_of_filter, elem_of_intersection. tauto.
Qed.

Lemma tags_in_shared (ids : gset Z) (p : Post.t) :
  tags_in ids p ↔ ∃ t, t ∈ Post.tags p ∧ t ∈ ids.
Proof. unfold tags_in, set_Exists. naive_solver. Qed.

Lemma elem_of_similar_posts_of now db post sp :
  sp ∈ similar_posts_of now db post →
  sp_post sp ∈ posts db ∧
  is_published now (sp_post sp) ∧
  Post.id (sp_post sp) ≠ Post.id post ∧
  tags_in (Post.tags post) (sp_post sp) ∧
  same_tags sp = count_tags (Post.tags post) (sp_post sp).
Proof.
  unfold similar_posts_of, Post_published. intros Hsp.
  apply subseteq_take in Hsp. rewrite merge_sort_Permutation in Hsp.
  apply list_elem_of_fmap in Hsp as (p & -> & Hp). simpl.
  apply list_elem_of_filter in Hp as [Hid Hp].
  apply list_elem_of_filter in Hp as [Htag Hp].
  apply list_elem_of_filter in Hp as [Hpub Hp].
  done.
Qed.

Lemma similar_posts_of_sorted now db post :
  StronglySorted same_tags_publish_desc (similar_posts_of now db post).
Proof.
  unfold similar_posts_of. apply StronglySorted_take.
  apply StronglySorted_merge_sort; apply _.
Qed.

(** C3: on a successful Post Detail request the list of similar posts has
    at most 4 entries; none of them is the displayed post; each is a
    published post that has a tag in common with the displayed post and is
    annotated with the number of common tags; and the list is in
    descending order of that number, entries with the same number being in
    descending order of publish timestamp. *)
Theorem similar_posts_spec
    (CommentForm : gmap string string → forms.ErrorDict * CommentData)
    (now : datetime.t) (db : DB) (request : HttpRequest)
    (year month day : Z) (post_slug : string) (t : string) (ctx : detail_context) :
  post_detail CommentForm now db request year month day post_slug
    = Ok (Render t ctx) →
  let post := detail_post ctx in
  let similar := detail_similar_posts ctx in
  (length similar ≤ 4)%nat ∧
  (∀ sp, sp ∈ similar →
     sp_post sp ≠ post ∧ Post.id (sp_post sp) ≠ Post.id post ∧
     sp_post sp ∈ posts db ∧ is_published now (sp_post sp) ∧
     (∃ tag, tag ∈ Post.tags (sp_post sp) ∧ tag ∈ Post.tags post) ∧
     same_tags sp = size (Post.tags (sp_post sp) ∩ Post.tags post) ∧
     (1 ≤ same_tags sp)%nat) ∧
  (∀ i j a b, (i < j)%nat → similar !! i = Some a → similar !! j = Some b →
     (same_tags b < same_tags a)%nat ∨
     (same_tags a = same_tags b ∧
      datetime.le (Post.publish (sp_post b)) (Post.publish (sp_post a)))).
Proof.
  rewrite post_detail_unfold.
  destruct (detail_get _ _ _ _ _) as [p|e] eqn:G; [|done].
  intros [= <- <-]. simpl. split_and!.
  - unfold similar_posts_of. rewrite length_take. lia.
  - intros sp Hsp.
    apply elem_of_similar_posts_of in Hsp as (Hin & Hpub & Hid & Htag & Hcount).
    apply tags_in_shared in Htag as (tag & Htag & Htag').
    rewrite count_tags_shared in Hcount.
    split_and!; [congruence|done..| |done|].
    + by exists tag.
    + rewrite Hcount.
      assert (size (Post.tags (sp_post sp) ∩ Post.tags p) ≠ 0)%nat; [|lia].
      apply size_non_empty_iff. intros Hempty.
      apply (not_elem_of_empty (C := gset Z) tag). rewrite <-Hempty.
      by apply elem_of_intersection.
  - intros i j a b Hij Ha Hb.
    apply (StronglySorted_lookup _ _ _ _ _ _
             (similar_posts_of_sorted now db p) Hij Ha Hb).
Qed.

Lemma similar_posts_spec_witness :
  post_detail Fixture.CommentForm Fixture.now Fixture.blog
    (Fixture.request "GET" [] []) 2024 3 1 "hello"
  = Ok (Render "blog/post/detail.html"
          (mkDetailContext Fixture.hello
             [Comment.mk (Some 1) (Some 1) "Ann" "ann@example.com" "Nice"
                (Some (Fixture.date 2024 3 5)) true]
             (forms.unbound Fixture.CommentForm)
             [mkSimilar Fixture.mail 2; mkSimilar Fixture.django 2;
              mkSimilar Fixture.forms_post 1; mkSimilar Fixture.orm 1])) ∧
  (length [mkSimilar Fixture.mail 2; mkSimilar Fixture.django 2;
           mkSimilar Fixture.forms_post 1; mkSimilar Fixture.orm 1] ≤ 4)%nat.
Proof.
  assert (post_detail Fixture.CommentForm Fixture.now Fixture.blog
            (Fixture.request "GET" [] []) 2024 3 1 "hello"
          = Ok (Render "blog/post/detail.html"
                  (mkDetailContext Fixture.hello
                     [Comment.mk (Some 1) (Some 1) "Ann" "ann@example.com" "Nice"
                        (Some (Fixture.date 2024 3 5)) true]
                     (forms.unbound Fixture.CommentForm)
                     [mkSimilar Fixture.mail 2; mkSimilar Fixture.django 2;
                      mkSimilar Fixture.forms_post 1; mkSimilar Fixture.orm 1])))
    as H by (vm_compute; reflexivity).
  split; [exact H|].
  exact (proj1 (similar_posts_spec _ _ _ _ _ _ _ _ _ _ H)).
Defined.

(** ** List: pagination *)

Section pagination_facts.
Variable int_of_str : string → option Z.
Context {A : Type}.
Implicit Types (l : list A) (n : Z).

Lemma num_pages_pos l : 1 ≤ Paginator.num_pages (Paginator.mk l 3).
Proof.
  unfold Paginator.num_pages, Paginator.count.
  cbn [Paginator.per_page Paginator.object_list].
  apply Z.div_le_lower_bound; lia.
Qed.

(** The slice of a page of three, for a page number that is in range. *)
Lemma page_slice l n :
  1 ≤ n →
  let count := Z.of_nat (length l) in
  let bottom := (n - 1) * 3 in
  let top := bottom + 3 in
  slice l bottom (if count <=? top + 0 then count else top)
    = take 3 (drop (Z.to_nat (3 * (n - 1))) l).
Proof.
  intros Hn. cbv zeta. unfold slice.
  replace (Z.to_nat (3 * (n - 1))) with (Z.to_nat ((n - 1) * 3)) by lia.
  destruct (Z.leb_spec (Z.of_nat (length l)) ((n - 1) * 3 + 3 + 0)) as [Hc|Hc].
  - rewrite !take_ge; [done|rewrite length_drop; lia..].
  - f_equal. lia.
Qed.

Lemma page_in_range l n :
  1 ≤ n ≤ Paginator.num_pages (Paginator.mk l 3) →
  Paginator.page int_of_str (Paginator.mk l 3) (PyInt n)
    = Ok (Paginator.mkPage (take 3 (drop (Z.to_nat (3 * (n - 1))) l)) n
            (Paginator.mk l 3)).
Proof.
  intros [H1 H2]. unfold Paginator.page, Paginator.validate_number. simpl.
  destruct (Z.ltb_spec n 1); [lia|].
  destruct (Z.ltb_spec (Paginator.num_pages (Paginator.mk l 3)) n); [lia|].
  simpl. unfold Paginator.count. simpl. by rewrite page_slice.
Qed.

Lemma page_out_of_range l n :
  n < 1 ∨ Paginator.num_pages (Paginator.mk l 3) < n →
  Paginator.page int_of_str (Paginator.mk l 3) (PyInt n) = Raise EmptyPage.
Proof.
  intros H. unfold Paginator.page, Paginator.validate_number. simpl.
  destruct (Z.ltb_spec n 1); [done|].
  destruct (Z.ltb_spec (Paginator.num_pages (Paginator.mk l 3)) n); [done|lia].
Qed.

Lemma page_not_an_integer l s :
  int_of_str s = None →
  Paginator.page int_of_str (Paginator.mk l 3) (PyStr s)
    = Raise PageNotAnInteger.
Proof.
  intros H. unfold Paginator.page, Paginator.validate_number. simpl.
  by rewrite H.
Qed.

Lemma page_of_string l s n :
  int_of_str s = Some n →
  Paginator.page int_of_str (Paginator.mk l 3) (PyStr s)
    = Paginator.page int_of_str (Paginator.mk l 3) (PyInt n).
Proof.
  intros H. unfold Paginator.page, Paginator.validate_number. simpl.
  by rewrite H.
Qed.

Lemma resolved_number_range l page_number :
  1 ≤ resolved_number int_of_str l page_number
    ≤ Paginator.num_pages (Paginator.mk l 3).
Proof.
  pose proof (num_pages_pos l). unfold resolved_number.
  destruct (Paginator.to_int _ _); [case_bool_decide|]; lia.
Qed.

Lemma paginate_resolved l (page_number : pyval) :
  let paginator := Paginator.mk l 3 in
  let n := resolved_number int_of_str l page_number in
  try_except (Paginator.page int_of_str paginator page_number)
    [ (PageNotAnInteger, Paginator.page int_of_str paginator (PyInt 1));
      (EmptyPage,
       Paginator.page int_of_str paginator
         (PyInt (Paginator.num_pages paginator))) ]
  = Ok (Paginator.mkPage (take 3 (drop (Z.to_nat (3 * (n - 1))) l)) n paginator).
Proof.
  intros paginator n. subst paginator n.
  pose proof (num_pages_pos l) as Hpos.
  assert (∀ m, Paginator.page int_of_str (Paginator.mk l 3) (PyInt m)
               = if bool_decide (1 ≤ m ≤ Paginator.num_pages (Paginator.mk l 3))
                 then Ok (Paginator.mkPage
                            (take 3 (drop (Z.to_nat (3 * (m - 1))) l)) m
                            (Paginator.mk l 3))
                 else Raise EmptyPage) as Hint.
  { intros m. case_bool_decide.
    - by apply page_in_range.
    - apply page_out_of_range. lia. }
  unfold resolved_number.
  destruct page_number as [m|s]; simpl.
  - rewrite Hint. case_bool_decide; simpl; [done|].
    rewrite Hint. rewrite bool_decide_eq_true_2 by lia. done.
  - destruct (int_of_str s) as [m|] eqn:E.
    + rewrite (page_of_string _ _ _ E), Hint.
      case_bool_decide; simpl; [done|].
      rewrite Hint. rewrite bool_decide_eq_true_2 by lia. done.
    + rewrite (page_not_an_integer _ _ E). simpl.
      rewrite Hint. rewrite bool_decide_eq_true_2 by lia. done.
Qed.

End pagination_facts.

(** What [post_list] answers once the tag is settled. *)
Lemma post_list_paginated int_of_str now db request tag_slug :
  let page_number :=
    match GET request !! "page" with
    | Some s => PyStr s
    | None => PyInt 1
    end in
  let answer (tag : option Tag.t) (l : list Post.t) :=
    let n := resolved_number int_of_str l page_number in
    Ok (Render "blog/post/list.html"
          (mkListContext
             (Paginator.mkPage (take 3 (drop (Z.to_nat (3 * (n - 1))) l)) n
                (Paginator.mk l 3))
             tag)) in
  post_list int_of_str now db request tag_slug =
    match tag_slug with
    | Some s =>
        if bool_decide (s = EmptyString) then answer None (Post_published now db)
        else
          match get_object_or_404 (λ t, Tag.slug t = s) (tags db) with
          | Ok tag =>
              answer (Some tag)
                (filter (λ p, Tag.id tag ∈ Post.tags p) (Post_published now db))
          | Raise e => Raise e
          end
    | None => answer None (Post_published now db)
    end.
Proof.
  cbv zeta. unfold post_list.
  destruct tag_slug as [s|]; [case_bool_decide|]; simpl.
  - by rewrite paginate_resolved.
  - destruct (get_object_or_404 _ _) as [tag|e]; simpl; [|done].
    by rewrite paginate_resolved.
  - by rewrite paginate_resolved.
Qed.

(** The number of pages of three: the number of posts over 3, rounded up,
    and 1 when there is no post. *)
Lemma num_pages_formula {A} (l : list A) :
  Paginator.num_pages (Paginator.mk l 3)
  = Z.max 1 ((Z.of_nat (length l) + 2) / 3).
Proof.
  unfold Paginator.num_pages, Paginator.count.
  cbn [Paginator.per_page Paginator.object_list].
  destruct l as [|a l]; [reflexivity|].
  assert (1 ≤ Z.of_nat (length (a :: l))) as Hlen by (simpl; lia).
  assert (1 ≤ (Z.of_nat (length (a :: l)) + 2) / 3) as Hdiv
    by (apply Z.div_le_lower_bound; lia).
  rewrite !Z.max_r by lia. f_equal. lia.
Qed.

(** The last page is the one that holds the last post. *)
Lemma last_page_holds_last {A} (l : list A) :
  l ≠ [] →
  let last := Z.max 1 ((Z.of_nat (length l) + 2) / 3) in
  3 * (last - 1) < Z.of_nat (length l) ≤ 3 * last.
Proof.
  intros Hl. cbv zeta.
  assert (1 ≤ Z.of_nat (length l)) as Hlen by (destruct l; [done|simpl; lia]).
  assert (1 ≤ (Z.of_nat (length l) + 2) / 3) as Hdiv
    by (apply Z.div_le_lower_bound; lia).
  rewrite Z.max_r by lia.
  pose proof (Z.div_mod (Z.of_nat (length l) + 2) 3 ltac:(lia)) as Hdm.
  pose proof (Z.mod_pos_bound (Z.of_nat (length l) + 2) 3 ltac:(lia)) as Hm.
  lia.
Qed.

(** C4: a List request answers with one page of the published posts, or of
    those carrying the tag of the request: at most 3 posts, those at the
    positions of the resolved page in that list.  The pages are counted
    from 1 to the number of posts over 3, rounded up (one empty page when
    there is no post); a page parameter that is absent or not an integer
    resolves to page 1, one that is out of range to the last page, one in
    range to itself; and the view raises nothing but what the lookup of
    the tag raises. *)
Theorem post_list_pagination
    (int_of_str : string → option Z) (now : datetime.t) (db : DB)
    (request : HttpRequest) (tag_slug : option string) :
  let response := post_list int_of_str now db request tag_slug in
  (∀ e, response = Raise e →
     e ≠ PageNotAnInteger ∧ e ≠ EmptyPage ∧
     ∃ s, tag_slug = Some s ∧ s ≠ EmptyString ∧
          get_object_or_404 (λ t, Tag.slug t = s) (tags db) = Raise e) ∧
  (∀ r, response = Ok r →
     ∃ ctx, r = Render "blog/post/list.html" ctx ∧
       let page := list_posts ctx in
       let paginator := Paginator.paginator page in
       let number := Paginator.number page in
       let listed :=
         match list_tag ctx with
         | Some tag =>
             filter (λ p, Tag.id tag ∈ Post.tags p) (Post_published now db)
         | None => Post_published now db
         end in
       let last := Z.max 1 ((Z.of_nat (length listed) + 2) / 3) in
       (tag_slug = None ∨ tag_slug = Some EmptyString → list_tag ctx = None) ∧
       (∀ s, tag_slug = Some s → s ≠ EmptyString →
          ∃ tag, get_object_or_404 (λ t, Tag.slug t = s) (tags db) = Ok tag ∧
                 list_tag ctx = Some tag) ∧
       paginator = Paginator.mk listed 3 ∧
       Paginator.num_pages paginator = last ∧
       (listed ≠ [] → 3 * (last - 1) < Z.of_nat (length listed) ≤ 3 * last) ∧
       (length (Paginator.page_object_list page) ≤ 3)%nat ∧
       1 ≤ number ≤ last ∧
       Paginator.page_object_list page
         = take 3 (drop (Z.to_nat (3 * (number - 1))) listed) ∧
       (GET request !! "page" = None → number = 1) ∧
       (∀ s, GET request !! "page" = Some s → int_of_str s = None →
          number = 1) ∧
       (∀ s n, GET request !! "page" = Some s → int_of_str s = Some n →
          n < 1 ∨ last < n → number = last) ∧
       (∀ s n, GET request !! "page" = Some s → int_of_str s = Some n →
          1 ≤ n ≤ last → number = n)).
Proof.
  intros response. subst response. rewrite post_list_paginated. cbv zeta.
  set (page_number := match GET request !! "page" with
                      | Some s => PyStr s
                      | None => PyInt 1
                      end).
  assert (∀ l : list Post.t,
    let n := resolved_number int_of_str l page_number in
    let last := Z.max 1 ((Z.of_nat (length l) + 2) / 3) in
    Paginator.num_pages (Paginator.mk l 3) = last ∧
    (l ≠ [] → 3 * (last - 1) < Z.of_nat (length l) ≤ 3 * last) ∧
    (length (take 3 (drop (Z.to_nat (3 * (n - 1))) l)) ≤ 3)%nat ∧
    1 ≤ n ≤ last ∧
    (GET request !! "page" = None → n = 1) ∧
    (∀ s, GET request !! "page" = Some s → int_of_str s = None → n = 1) ∧
    (∀ s m, GET request !! "page" = Some s → int_of_str s = Some m →
       m < 1 ∨ last < m → n = last) ∧
    (∀ s m, GET request !! "page" = Some s → int_of_str s = Some m →
       1 ≤ m ≤ last → n = m)) as Hpage.
  { intros l. cbv zeta. rewrite <-(num_pages_formula l).
    pose proof (num_pages_pos l) as Hpos.
    subst page_number. split_and!.
    - done.
    - intros Hl. rewrite (num_pages_formula l). by apply last_page_holds_last.
    - rewrite length_take. lia.
    - apply resolved_number_range.
    - apply resolved_number_range.
    - intros ->. unfold resolved_number. simpl.
      by rewrite bool_decide_eq_true_2 by lia.
    - intros s -> E. unfold resolved_number. simpl. by rewrite E.
    - intros s m -> E Hm. unfold resolved_number. simpl. rewrite E.
      by rewrite bool_decide_eq_false_2 by lia.
    - intros s m -> E Hm. unfold resolved_number. simpl. rewrite E.
      by rewrite bool_decide_eq_true_2. }
  destruct tag_slug as [s|]; [case_bool_decide as Hs|].
  - split; [intros e [=]|]. intros r [= <-]. eexists. split; [done|].
    cbn [list_posts list_tag Paginator.paginator Paginator.number
         Paginator.page_object_list].
    destruct (Hpage (Post_published now db))
      as (? & ? & ? & [? ?] & ? & ? & ? & ?).
    split_and!; try done. intros s' [= <-]. done.
  - destruct (get_object_or_404_cases (λ t, Tag.slug t = s) (tags db))
      as [[_ G]|[[tag [_ G]]|[_ G]]]; rewrite G.
    + split; [|intros r [=]]. intros e [= <-]. split_and!; [done..|].
      exists s. done.
    + split; [intros e [=]|]. intros r [= <-]. eexists. split; [done|].
      cbn [list_posts list_tag Paginator.paginator Paginator.number
           Paginator.page_object_list].
      destruct (Hpage (filter (λ p, Tag.id tag ∈ Post.tags p)
                         (Post_published now db)))
        as (? & ? & ? & [? ?] & ? & ? & ? & ?).
      split_and!; try done.
      * intros [[=]|[= ->]]. done.
      * intros s' [= <-] _. by exists tag.
    + split; [|intros r [=]]. intros e [= <-]. split_and!; [done..|].
      exists s. done.
  - split; [intros e [=]|]. intros r [= <-]. eexists. split; [done|].
    cbn [list_posts list_tag Paginator.paginator Paginator.number
         Paginator.page_object_list].
    destruct (Hpage (Post_published now db))
      as (? & ? & ? & [? ?] & ? & ? & ? & ?).
    split_and!; done.
Qed.

(** The pagination on the sample blog, which has six published posts: a
    page parameter that is not a number gives page 1, one past the end
    gives the last page. *)
Example post_list_pages :
  let ids r :=
    match r with
    | Ok (Render _ ctx) =>
        Some (Paginator.number (list_posts ctx),
              Post.id <$> Paginator.page_object_list (list_posts ctx))
    | _ => None
    end in
  ids (post_list Fixture.int_of_str Fixture.now Fixture.blog
         (Fixture.request "GET" [("page", "abc")] []) None)
    = Some (1, [1; 4; 5]) ∧
  ids (post_list Fixture.int_of_str Fixture.now Fixture.blog
         (Fixture.request "GET" [("page", "99")] []) None)
    = Some (2, [6; 7; 8]) ∧
  ids (post_list Fixture.int_of_str Fixture.now Fixture.blog
         (Fixture.request "GET" [("page", "0")] []) (Some "python"))
    = Some (2, [7]) ∧
  post_list Fixture.int_of_str Fixture.now Fixture.blog
    (Fixture.request "GET" [] []) (Some "unknown") = Raise Http404.
Proof. vm_compute. done. Qed.

(** ** Share: the message *)

Lemma string_app_assoc (s t u : string) : (s +:+ t) +:+ u = s +:+ t +:+ u.
Proof.
  induction s as [|a s IH]; [reflexivity|].
  change (String a ((s +:+ t) +:+ u) = String a (s +:+ t +:+ u)).
  by rewrite IH.
Qed.

Lemma string_app_empty (s : string) : s +:+ EmptyString = s.
Proof.
  induction s as [|a s IH]; [reflexivity|].
  change (String a (s +:+ EmptyString) = String a s). by rewrite IH.
Qed.

Lemma contains_refl (s : string) : contains s s.
Proof. exists EmptyString, EmptyString. by rewrite string_app_empty. Qed.

Lemma contains_app_l (s t u : string) : contains s u → contains (s +:+ t) u.
Proof.
  intros (pre & suf & ->). exists pre, (suf +:+ t).
  by rewrite !string_app_assoc.
Qed.

Lemma contains_app_r (s t u : string) : contains t u → contains (s +:+ t) u.
Proof.
  intros (pre & suf & ->). exists (s +:+ pre), suf.
  by rewrite !string_app_assoc.
Qed.

Create HintDb contains.
#[local] Hint Resolve contains_refl contains_app_l contains_app_r : contains.

(** A bound form that is not valid carries errors. *)
Lemma bound_invalid_errors {C} (clean : gmap string string → forms.ErrorDict * C)
    (d : gmap string string) :
  forms.is_valid (forms.bound clean d) = false →
  forms.errors (forms.bound clean d) ≠ [].
Proof.
  unfold forms.is_valid. simpl. intros H E.
  by rewrite bool_decide_eq_true_2 in H.
Qed.

Lemma bound_valid_errors {C} (clean : gmap string string → forms.ErrorDict * C)
    (d : gmap string string) :
  forms.is_valid (forms.bound clean d) = true →
  forms.errors (forms.bound clean d) = [].
Proof.
  unfold forms.is_valid. simpl. intros H. by apply bool_decide_eq_true in H.
Qed.

(** C5: a Share POST with valid form data, for a post that the lookup
    finds and with a transport that takes the message, sends exactly one
    message; its recipient list is the submitted "to" address, its body
    contains the absolute URL of the post, the sender's name, the title of
    the post and the sender's comment; and the answer is marked sent.  A
    Share POST with invalid form data sends nothing and hands back the
    form with its errors. *)
Theorem post_share_POST
    (get_absolute_url : Post.t → string)
    (build_absolute_uri : HttpRequest → string → string)
    (EmailPostForm : gmap string string → forms.ErrorDict * EmailPostData)
    (transport_accepts : EmailMessage → bool)
    (db : DB) (request : HttpRequest) (post_id : Z) (post : Post.t)
    (outbox : list EmailMessage) :
  method request = "POST" →
  get_object_or_404 (id_lookup post_id) (Post_objects db) = Ok post →
  let share :=
    post_share get_absolute_url build_absolute_uri EmailPostForm
      transport_accepts db request post_id outbox in
  let form := forms.bound EmailPostForm (POST request) in
  let cd := forms.cleaned_data form in
  (forms.is_valid form = true →
   transport_accepts
     (share_email get_absolute_url build_absolute_uri request post cd) = true →
   ∃ m, share = (Ok (Render "blog/post/share.html"
                       (mkShareContext post form true)),
                 outbox ++ [m]) ∧
        recipient_list m = [cd_to cd] ∧
        contains (message m) (build_absolute_uri request (get_absolute_url post)) ∧
        contains (message m) (cd_name cd) ∧
        contains (message m) (Post.title post) ∧
        contains (message m) (cd_comments cd)) ∧
  (forms.is_valid form = false →
   share = (Ok (Render "blog/post/share.html" (mkShareContext post form false)),
            outbox) ∧
   forms.errors form ≠ []).
Proof.
  intros Hm G. cbv zeta.
  rewrite (post_share_fetched _ _ _ _ _ _ _ _ _ G).
  rewrite bool_decide_eq_true_2 by done. cbv zeta. split.
  - intros -> ->. eexists. split; [done|]. unfold share_email. simpl.
    split_and!; eauto 12 with contains.
  - intros Hinv. rewrite Hinv. split; [done|]. by apply bound_invalid_errors.
Qed.

Lemma post_share_POST_witness :
  method Fixture.share_request = "POST" ∧
  get_object_or_404 (id_lookup 1) (Post_objects Fixture.blog) = Ok Fixture.hello ∧
  forms.is_valid (forms.bound Fixture.EmailPostForm (POST Fixture.share_request))
    = true ∧
  ∃ m, (post_share Fixture.get_absolute_url Fixture.build_absolute_uri
          Fixture.EmailPostForm (λ _, true) Fixture.blog Fixture.share_request
          1 []).2 = [m] ∧
       recipient_list m = ["bob@example.com"] ∧
       contains (message m) "http://testserver/blog/hello/".
Proof.
  split_and!; [reflexivity..|].
  destruct (post_share_POST Fixture.get_absolute_url Fixture.build_absolute_uri
              Fixture.EmailPostForm (λ _, true) Fixture.blog
              Fixture.share_request 1 Fixture.hello [] eq_refl eq_refl)
    as [Hvalid _].
  destruct (Hvalid eq_refl eq_refl) as (m & Hshare & Hto & Hurl & _).
  exists m. rewrite Hshare. split_and!; [reflexivity|exact Hto|exact Hurl].
Defined.

(** The message of the sample Share request. *)
Example post_share_message :
  post_share Fixture.get_absolute_url Fixture.build_absolute_uri
    Fixture.EmailPostForm (λ _, true) Fixture.blog Fixture.share_request 1 []
  = (Ok (Render "blog/post/share.html"
           (mkShareContext Fixture.hello
              (forms.bound Fixture.EmailPostForm (POST Fixture.share_request))
              true)),
     [mkEmail "Ann recommends you read Hello Django"
        ("Read Hello Django at http://testserver/blog/hello/" +:+ LF +:+ LF
         +:+ "Ann's comments: read it")
        "danylov.lv@gmail.com" ["bob@example.com"]]).
Proof. vm_compute. reflexivity. Qed.

(** A transport that fails makes the view raise; nothing is marked. *)
Lemma post_share_transport_failure
    (get_absolute_url : Post.t → string)
    (build_absolute_uri : HttpRequest → string → string)
    (EmailPostForm : gmap string string → forms.ErrorDict * EmailPostData)
    (transport_accepts : EmailMessage → bool)
    (db : DB) (request : HttpRequest) (post_id : Z) (post : Post.t)
    (outbox : list EmailMessage) :
  method request = "POST" →
  get_object_or_404 (id_lookup post_id) (Post_objects db) = Ok post →
  forms.is_valid (forms.bound EmailPostForm (POST request)) = true →
  transport_accepts
    (share_email get_absolute_url build_absolute_uri request post
       (forms.cleaned_data (forms.bound EmailPostForm (POST request)))) = false →
  post_share get_absolute_url build_absolute_uri EmailPostForm
    transport_accepts db request post_id outbox
  = (Raise SMTPException, outbox).
Proof.
  intros Hm G Hv Ht. rewrite (post_share_fetched _ _ _ _ _ _ _ _ _ G).
  rewrite bool_decide_eq_true_2 by done. cbv zeta. by rewrite Hv, Ht.
Qed.

(** C10: whenever a Share request is answered as sent, the one message
    that went out has the fixed from-address, whatever address the sender
    submitted; and no other request adds a message. *)
Theorem post_share_from_email
    (get_absolute_url : Post.t → string)
    (build_absolute_uri : HttpRequest → string → string)
    (EmailPostForm : gmap string string → forms.ErrorDict * EmailPostData)
    (transport_accepts : EmailMessage → bool)
    (db : DB) (request : HttpRequest) (post_id : Z)
    (outbox outbox' : list EmailMessage) (r : result (HttpResponse share_context)) :
  post_share get_absolute_url build_absolute_uri EmailPostForm
    transport_accepts db request post_id outbox = (r, outbox') →
  match r with
  | Ok (Render _ ctx) =>
      if share_sent ctx then
        ∃ m, outbox' = outbox ++ [m] ∧ from_email m = "danylov.lv@gmail.com"
      else outbox' = outbox
  | _ => outbox' = outbox
  end.
Proof.
  destruct (get_object_or_404 (id_lookup post_id) (posts db)) as [post|e] eqn:G.
  - rewrite (post_share_fetched _ _ _ _ _ _ _ _ _ G). cbv zeta.
    destruct (bool_decide (method request = "POST"));
      [destruct (forms.is_valid _); [destruct (transport_accepts _)|]|];
      intros [= <- <-]; simpl; eauto.
  - rewrite (post_share_not_fetched _ _ _ _ _ _ _ _ _ G). by intros [= <- <-].
Qed.

Lemma post_share_from_email_witness :
  post_share Fixture.get_absolute_url Fixture.build_absolute_uri
    Fixture.EmailPostForm (λ _, true) Fixture.blog Fixture.share_request 1 []
  = (Ok (Render "blog/post/share.html"
           (mkShareContext Fixture.hello
              (forms.bound Fixture.EmailPostForm (POST Fixture.share_request))
              true)),
     [share_email Fixture.get_absolute_url Fixture.build_absolute_uri
        Fixture.share_request Fixture.hello
        (mkEmailPostData "Ann" "ann@example.com" "bob@example.com" "read it")]) ∧
  ∃ m, [share_email Fixture.get_absolute_url Fixture.build_absolute_uri
          Fixture.share_request Fixture.hello
          (mkEmailPostData "Ann" "ann@example.com" "bob@example.com" "read it")]
       = [] ++ [m] ∧
       from_email m = "danylov.lv@gmail.com".
Proof.
  assert (post_share Fixture.get_absolute_url Fixture.build_absolute_uri
            Fixture.EmailPostForm (λ _, true) Fixture.blog
            Fixture.share_request 1 []
          = (Ok (Render "blog/post/share.html"
                   (mkShareContext Fixture.hello
                      (forms.bound Fixture.EmailPostForm
                         (POST Fixture.share_request))
                      true)),
             [share_email Fixture.get_absolute_url Fixture.build_absolute_uri
                Fixture.share_request Fixture.hello
                (mkEmailPostData "Ann" "ann@example.com" "bob@example.com"
                   "read it")])) as H by (vm_compute; reflexivity).
  split; [exact H|].
  exact (post_share_from_email _ _ _ _ _ _ _ _ _ _ H).
Defined.

(** ** Comment *)

(** C6: Comment answers any request that is not a POST with
    MethodNotAllowed and creates nothing; a POST with valid fields, for a
    post that the lookup finds, creates exactly one Comment, bound to that
    post and active; a POST with invalid fields creates none and hands
    back a form whose set of errors is not empty. *)
Theorem post_comment_spec
    (CommentForm : gmap string string → forms.ErrorDict * CommentData)
    (now : datetime.t) (db : DB) (request : HttpRequest) (post_id : Z) :
  let comment := post_comment CommentForm now post_id request db in
  let form := forms.bound CommentForm (POST request) in
  let cd := forms.cleaned_data form in
  (method request ≠ "POST" →
   comment = (Ok (HttpResponseNotAllowed ["POST"]), db)) ∧
  (∀ post, method request = "POST" →
     get_object_or_404 (id_lookup post_id) (Post_objects db) = Ok post →
     forms.is_valid form = true →
     ∃ c, comment = (Ok (Render "blog/post/comment.html"
                           (mkCommentContext post form (Some c))),
                     mkDB (posts db) (tags db) (comments db ++ [c])) ∧
          Comment.post c = Some (Post.id post) ∧
          Comment.active c = true ∧
          Comment.name c = cd_author cd ∧
          Comment.email c = cd_author_email cd ∧
          Comment.body c = cd_body cd) ∧
  (∀ post, method request = "POST" →
     get_object_or_404 (id_lookup post_id) (Post_objects db) = Ok post →
     forms.is_valid form = false →
     comment = (Ok (Render "blog/post/comment.html"
                      (mkCommentContext post form None)), db) ∧
     forms.errors form ≠ []) ∧
  (forms.is_valid form = false → comment.2 = db).
Proof.
  cbv zeta. split_and!.
  - apply post_comment_not_POST.
  - intros post Hm G Hv. rewrite (post_comment_fetched _ _ _ _ _ _ Hm G).
    cbv zeta. rewrite Hv. eexists. split; [done|]. simpl. done.
  - intros post Hm G Hv. rewrite (post_comment_fetched _ _ _ _ _ _ Hm G).
    cbv zeta. rewrite Hv. split; [done|]. by apply bound_invalid_errors.
  - intros Hv. destruct (decide (method request = "POST")) as [Hm|Hm].
    + destruct (get_object_or_404 (id_lookup post_id) (posts db))
        as [post|e] eqn:G.
      * rewrite (post_comment_fetched _ _ _ _ _ _ Hm G). cbv zeta.
        by rewrite Hv.
      * by rewrite (post_comment_not_fetched _ _ _ _ _ _ Hm G).
    + by rewrite post_comment_not_POST.
Qed.

(** On the sample blog: a comment without the author's name creates
    nothing and is answered with an error for the name; a GET is answered
    with MethodNotAllowed; a complete comment becomes row 3, bound to
    post 1 and active. *)
Example post_comment_requests :
  post_comment Fixture.CommentForm Fixture.now 1
    Fixture.nameless_comment_request Fixture.blog
  = (Ok (Render "blog/post/comment.html"
           (mkCommentContext Fixture.hello
              (forms.bound Fixture.CommentForm
                 (POST Fixture.nameless_comment_request))
              None)),
     Fixture.blog) ∧
  forms.errors
    (forms.bound Fixture.CommentForm (POST Fixture.nameless_comment_request))
  = [("name", ["This field is required."])] ∧
  post_comment Fixture.CommentForm Fixture.now 1
    (Fixture.request "GET" [] []) Fixture.blog
  = (Ok (HttpResponseNotAllowed ["POST"]), Fixture.blog) ∧
  (post_comment Fixture.CommentForm Fixture.now 1
     Fixture.comment_request Fixture.blog).2
  = mkDB (posts Fixture.blog) (tags Fixture.blog)
      (comments Fixture.blog ++
       [Comment.mk (Some 3) (Some 1) "Ann" "ann@example.com" "Hi"
          (Some Fixture.now) true]).
Proof. vm_compute. done. Qed.

(** ** Search *)

(** The sample similarity is a score between 0 and 1. *)
Lemma Fixture_TrigramSimilarity_range (field query : string) :
  (0 <= Fixture.TrigramSimilarity field query)%Q ∧
  (Fixture.TrigramSimilarity field query <= 1)%Q.
Proof.
  unfold Fixture.TrigramSimilarity. cbv zeta.
  set (a := Fixture.trgm field). set (b := Fixture.trgm query).
  pose proof (length_filter (λ t, t ∈ b) a) as Hshared.
  rewrite length_app.
  set (k := length (filter (λ t, t ∈ b) a)) in *.
  set (e := (length a + length (filter (λ t, t ∉ a) b))%nat).
  assert (k ≤ e)%nat as Hke by (subst e; lia).
  clearbody k e.
  assert (0 <= Z.of_nat k # Pos.of_nat e)%Q as H0
    by (unfold Qle; cbn [Qnum Qden]; lia).
  assert (Z.of_nat k # Pos.of_nat e <= 2 ^ 0)%Q as H1.
  { change (2 ^ 0)%Q with 1%Q. unfold Qle. cbn [Qnum Qden].
    destruct e as [|e]; [simpl; lia|].
    rewrite <-Pos.of_nat_succ, Zpos_P_of_succ_nat. lia. }
  exact (float4_range _ 0 ltac:(lia) H0 H1).
Qed.

Lemma elem_of_Post_published now db p :
  p ∈ Post_published now db ↔ p ∈ posts db ∧ is_published now p.
Proof. unfold Post_published. rewrite list_elem_of_filter. tauto. Qed.

(** The bound of the filter on a score: the Python float 0.1 and the
    number 0.1 admit the same single-precision numbers. *)
Lemma query_similarity_gte TrigramSimilarity query p :
  (similarity_gte <= query_similarity TrigramSimilarity query p)%Q ↔
  (1 # 10 <= query_similarity TrigramSimilarity query p)%Q.
Proof. apply float4_ge_one_tenth. Qed.

(** What [post_search] answers to a valid query. *)
Lemma post_search_valid TrigramSimilarity SearchForm now db request :
  "query" ∈ dom (GET request) →
  forms.is_valid (forms.bound SearchForm (GET request)) = true →
  post_search TrigramSimilarity SearchForm now db request =
    let form := forms.bound SearchForm (GET request) in
    let query := forms.cleaned_data form in
    Ok (Render "blog/post/search.html"
          (mkSearchContext form (Some query)
             (merge_sort similarity_desc
                (filter (λ r, (similarity_gte <= similarity r)%Q)
                   ((λ p, mkSearchResult p
                            (query_similarity TrigramSimilarity query p))
                      <$> Post_published now db))))).
Proof.
  intros Hq Hv. unfold post_search.
  rewrite bool_decide_eq_true_2 by done. by rewrite Hv.
Qed.

(** C7, the claim as worded, fails: the draft whose title and body both
    read "django" is a post whose two similarities to the query "django"
    sum to 2, which is above 0.1, and it is not among the results: the
    search runs on the published posts only. *)
Lemma post_search_omits_draft :
  Fixture.draft ∈ posts Fixture.blog ∧
  (Fixture.TrigramSimilarity (Post.title Fixture.draft) "django"
   + Fixture.TrigramSimilarity (Post.body Fixture.draft) "django" == 2)%Q ∧
  (1 # 10 <= Fixture.TrigramSimilarity (Post.title Fixture.draft) "django"
             + Fixture.TrigramSimilarity (Post.body Fixture.draft) "django")%Q ∧
  match post_search Fixture.TrigramSimilarity (Fixture.SearchForm 100)
          Fixture.now Fixture.blog
          (Fixture.request "GET" [("query", "django")] []) with
  | Ok (Render _ ctx) =>
      search_query ctx = Some "django" ∧
      ∀ r, r ∈ search_results ctx → sr_post r ≠ Fixture.draft
  | _ => False
  end.
Proof.
  split_and!.
  - apply (bool_decide_unpack _). vm_compute. exact I.
  - vm_compute. reflexivity.
  - vm_compute. discriminate.
  - replace (post_search _ _ _ _ _)
      with (Ok (Render "blog/post/search.html"
                  (mkSearchContext
                     (forms.bound (Fixture.SearchForm 100)
                        (GET (Fixture.request "GET" [("query", "django")] [])))
                     (Some "django")
                     [mkSearchResult Fixture.django (8388608 # 4194304);
                      mkSearchResult Fixture.hello (13550829 # 16777216)])))
      by (vm_compute; reflexivity).
    split; [reflexivity|]. cbn [search_results].
    intros r Hr E.
    assert (Post.id (sr_post r) ≠ 2) as Hid.
    { repeat (apply elem_of_cons in Hr as [->|Hr]; [by intros [=]|]).
      by apply not_elem_of_nil in Hr. }
    apply Hid. by rewrite E.
Qed.

(** C7, amended: for a Search request with a valid query, every result
    carries as its score the sum, rounded to single precision as the
    database adds, of the similarity of the query to the title and to the
    body of its post; the results are exactly the published posts whose
    score is at least 0.1, each once per row; and they are in descending
    order of score. *)
Theorem post_search_results
    (TrigramSimilarity : string → string → Q)
    (SearchForm : gmap string string → forms.ErrorDict * string)
    (now : datetime.t) (db : DB) (request : HttpRequest) :
  "query" ∈ dom (GET request) →
  forms.is_valid (forms.bound SearchForm (GET request)) = true →
  let form := forms.bound SearchForm (GET request) in
  let query := forms.cleaned_data form in
  let score p := float.float4 (TrigramSimilarity (Post.title p) query
                               + TrigramSimilarity (Post.body p) query)%Q in
  ∃ results,
    post_search TrigramSimilarity SearchForm now db request
      = Ok (Render "blog/post/search.html"
              (mkSearchContext form (Some query) results)) ∧
    (∀ r, r ∈ results → similarity r = score (sr_post r)) ∧
    (∀ p, (∃ r, r ∈ results ∧ sr_post r = p) ↔
          (p ∈ posts db ∧ is_published now p ∧ (1 # 10 <= score p)%Q)) ∧
    sr_post <$> results
      ≡ₚ filter (λ p, (1 # 10 <= score p)%Q) (Post_published now db) ∧
    (∀ i j a b, (i < j)%nat → results !! i = Some a → results !! j = Some b →
       (similarity b <= similarity a)%Q).
Proof.
  intros Hq Hv. cbv zeta. rewrite (post_search_valid _ _ _ _ _ Hq Hv). cbv zeta.
  set (query := forms.cleaned_data (forms.bound SearchForm (GET request))).
  set (annotate := λ p, mkSearchResult p (query_similarity TrigramSimilarity query p)).
  eexists. split; [done|].
  assert (∀ r, r ∈ merge_sort similarity_desc
                     (filter (λ r, (similarity_gte <= similarity r)%Q)
                        (annotate <$> Post_published now db)) ↔
               ∃ p, r = annotate p ∧ p ∈ Post_published now db ∧
                    (1 # 10 <= query_similarity TrigramSimilarity query p)%Q)
    as Hmem.
  { intros r. rewrite merge_sort_Permutation, list_elem_of_filter,
      list_elem_of_fmap. split.
    - intros [Hr (p & -> & Hp)]. exists p.
      split_and!; [done..|]. by apply query_similarity_gte.
    - intros (p & -> & Hp & Hr). split; [|by exists p].
      by apply query_similarity_gte. }
  split_and!.
  - intros r (p & -> & _)%Hmem. done.
  - intros p. split.
    + intros (r & (p' & -> & Hp & Hs)%Hmem & <-).
      apply elem_of_Post_published in Hp as [Hp Hpub]. done.
    + intros (Hp & Hpub & Hs). exists (annotate p). split; [|done].
      apply Hmem. exists p. split_and!; [done| |done].
      by apply elem_of_Post_published.
  - rewrite merge_sort_Permutation. clear Hmem.
    induction (Post_published now db) as [|p l IH]; [done|].
    rewrite fmap_cons, !filter_cons. simpl.
    pose proof (query_similarity_gte TrigramSimilarity query p) as Hp.
    unfold query_similarity in *.
    destruct (decide (similarity_gte <= _)%Q), (decide (1 # 10 <= _)%Q);
      rewrite ?fmap_cons; simpl; try tauto; by rewrite IH.
  - intros i j a b Hij Ha Hb.
    eapply (StronglySorted_lookup similarity_desc); [|done..].
    apply StronglySorted_merge_sort; apply _.
Qed.

Lemma post_search_results_witness :
  "query" ∈ dom (GET (Fixture.request "GET" [("query", "djano")] [])) ∧
  forms.is_valid
    (forms.bound (Fixture.SearchForm 100)
       (GET (Fixture.request "GET" [("query", "djano")] []))) = true ∧
  ∃ results,
    post_search Fixture.TrigramSimilarity (Fixture.SearchForm 100) Fixture.now
      Fixture.blog (Fixture.request "GET" [("query", "djano")] [])
    = Ok (Render "blog/post/search.html"
            (mkSearchContext
               (forms.bound (Fixture.SearchForm 100)
                  (GET (Fixture.request "GET" [("query", "djano")] [])))
               (Some "djano") results)) ∧
    ∀ r, r ∈ results →
      similarity r
      = float.float4
          (Fixture.TrigramSimilarity (Post.title (sr_post r)) "djano"
           + Fixture.TrigramSimilarity (Post.body (sr_post r)) "djano")%Q.
Proof.
  assert ("query" ∈ dom (GET (Fixture.request "GET" [("query", "djano")] [])))
    as Hq by (apply (bool_decide_unpack _); vm_compute; exact I).
  split_and!; [exact Hq|reflexivity|].
  destruct (post_search_results Fixture.TrigramSimilarity (Fixture.SearchForm 100)
              Fixture.now Fixture.blog
              (Fixture.request "GET" [("query", "djano")] []) Hq eq_refl)
    as (results & Hres & Hscore & _).
  exists results. split; [exact Hres|exact Hscore].
Defined.

(** The search of the spec's example: the misspelt "djano" finds the posts
    with "Django" in the title, the closest first; the draft is not
    among them.  The scores are the single-precision numbers nearest to
    8/9, as 4/9 + 4/9, and to 43/105, as 1/3 + 2/25. *)
Example post_search_djano :
  match post_search Fixture.TrigramSimilarity (Fixture.SearchForm 100)
          Fixture.now Fixture.blog
          (Fixture.request "GET" [("query", "djano")] []) with
  | Ok (Render _ ctx) =>
      (λ r, (Post.id (sr_post r), Qred (similarity r))) <$> search_results ctx
      = [(4, 14913081 # 16777216); (1, 3435335 # 8388608)]
  | _ => False
  end.
Proof. vm_compute. reflexivity. Qed.

(** A title with the similarity 0.08 and a body with the similarity 0.02,
    as single-precision numbers, have a sum half-way between two
    single-precision numbers; it is rounded to the one below 0.1, and the
    post is not found. *)
Example post_search_below_bound :
  let title_similarity := float.float4 (2 # 25) in
  let body_similarity := float.float4 (1 # 50) in
  let TrigramSimilarity (field query : string) :=
    if bool_decide (field = "Hello Django") then title_similarity
    else body_similarity in
  (query_similarity TrigramSimilarity "q" Fixture.hello
   == 3355443 # 33554432)%Q ∧
  (query_similarity TrigramSimilarity "q" Fixture.hello < 1 # 10)%Q ∧
  post_search TrigramSimilarity (Fixture.SearchForm 100) Fixture.now
    (mkDB [Fixture.hello] [] []) (Fixture.request "GET" [("query", "q")] [])
  = Ok (Render "blog/post/search.html"
          (mkSearchContext
             (forms.bound (Fixture.SearchForm 100)
                (GET (Fixture.request "GET" [("query", "q")] [])))
             (Some "q") [])).
Proof. cbv zeta. split_and!; vm_compute; reflexivity. Qed.

(** C8, the claim as worded, fails: the query "django" gives the post whose
    title and body both read "django" the score 1 + 1, which is not in
    [0,1], although each of the two similarities is. *)
Lemma post_search_similarity_exceeds_one :
  (∀ field query,
     (0 <= Fixture.TrigramSimilarity field query)%Q ∧
     (Fixture.TrigramSimilarity field query <= 1)%Q) ∧
  match post_search Fixture.TrigramSimilarity (Fixture.SearchForm 100)
          Fixture.now Fixture.blog
          (Fixture.request "GET" [("query", "django")] []) with
  | Ok (Render _ ctx) =>
      ∃ r, r ∈ search_results ctx ∧
           sr_post r = Fixture.django ∧
           (similarity r == 2)%Q ∧
           ¬ (similarity r <= 1)%Q
  | _ => False
  end.
Proof.
  split; [apply Fixture_TrigramSimilarity_range|].
  vm_compute.
  exists (mkSearchResult Fixture.django (8388608 # 4194304)).
  split_and!; [left|reflexivity|reflexivity|].
  intros H. apply H. reflexivity.
Qed.

(** C8, amended: when each of the two similarities lies in [0,1], the
    score annotated on every search result lies in [0,2], and is at least
    0.1. *)
Theorem post_search_similarity_range
    (TrigramSimilarity : string → string → Q)
    (SearchForm : gmap string string → forms.ErrorDict * string)
    (now : datetime.t) (db : DB) (request : HttpRequest)
    (t : string) (ctx : search_context) :
  (∀ field query,
     (0 <= TrigramSimilarity field query)%Q ∧
     (TrigramSimilarity field query <= 1)%Q) →
  post_search TrigramSimilarity SearchForm now db request = Ok (Render t ctx) →
  ∀ r, r ∈ search_results ctx →
    (0 <= similarity r)%Q ∧ (1 # 10 <= similarity r)%Q ∧ (similarity r <= 2)%Q.
Proof.
  intros Hrange. unfold post_search.
  destruct (bool_decide _); [destruct (forms.is_valid _)|];
    intros [= <- <-] r Hr; simpl in Hr; try by apply not_elem_of_nil in Hr.
  rewrite merge_sort_Permutation in Hr.
  apply list_elem_of_filter in Hr as [Hlow Hr].
  apply list_elem_of_fmap in Hr as (p & -> & _). simpl in *.
  apply query_similarity_gte in Hlow.
  unfold query_similarity in *.
  destruct (Hrange (Post.title p)
              (forms.cleaned_data (forms.bound SearchForm (GET request))))
    as [Ht0 Ht1].
  destruct (Hrange (Post.body p)
              (forms.cleaned_data (forms.bound SearchForm (GET request))))
    as [Hb0 Hb1].
  set (x := (TrigramSimilarity (Post.title p) _ + TrigramSimilarity (Post.body p) _)%Q)
    in *.
  assert (0 <= x)%Q as Hx0.
  { replace 0%Q with (0 + 0)%Q by reflexivity. by apply Qplus_le_compat. }
  assert (x <= 2 ^ 1)%Q as Hx2.
  { change (2 ^ 1)%Q with (1 + 1)%Q. by apply Qplus_le_compat. }
  destruct (float4_range x 1 ltac:(lia) Hx0 Hx2) as [H0 H2].
  split_and!; done.
Qed.

Lemma post_search_similarity_range_witness :
  (∀ field query,
     (0 <= Fixture.TrigramSimilarity field query)%Q ∧
     (Fixture.TrigramSimilarity field query <= 1)%Q) ∧
  post_search Fixture.TrigramSimilarity (Fixture.SearchForm 100) Fixture.now
    Fixture.blog (Fixture.request "GET" [("query", "django")] [])
  = Ok (Render "blog/post/search.html"
          (mkSearchContext
             (forms.bound (Fixture.SearchForm 100)
                (GET (Fixture.request "GET" [("query", "django")] [])))
             (Some "django")
             [mkSearchResult Fixture.django (8388608 # 4194304);
              mkSearchResult Fixture.hello (13550829 # 16777216)])) ∧
  ((0 <= 8388608 # 4194304)%Q ∧ (1 # 10 <= 8388608 # 4194304)%Q ∧
   (8388608 # 4194304 <= 2)%Q).
Proof.
  assert (post_search Fixture.TrigramSimilarity (Fixture.SearchForm 100)
            Fixture.now Fixture.blog
            (Fixture.request "GET" [("query", "django")] [])
          = Ok (Render "blog/post/search.html"
                  (mkSearchContext
                     (forms.bound (Fixture.SearchForm 100)
                        (GET (Fixture.request "GET" [("query", "django")] [])))
                     (Some "django")
                     [mkSearchResult Fixture.django (8388608 # 4194304);
                      mkSearchResult Fixture.hello (13550829 # 16777216)])))
    as H by (vm_compute; reflexivity).
  split; [apply Fixture_TrigramSimilarity_range|]. split; [exact H|].
  apply (post_search_similarity_range _ _ _ _ _ _ _
           Fixture_TrigramSimilarity_range H
           (mkSearchResult Fixture.django (8388608 # 4194304))).
  simpl. left.
Defined.

(** C9, the claim as worded, fails: a query that is present and fails
    validation (here it exceeds the length bound) is answered with the
    form bound to the submitted data and carrying the error, not with the
    empty form. *)
Lemma post_search_invalid_query_keeps_form :
  forms.is_valid
    (forms.bound (Fixture.SearchForm 3)
       (GET (Fixture.request "GET" [("query", "django")] []))) = false ∧
  match post_search Fixture.TrigramSimilarity (Fixture.SearchForm 3)
          Fixture.now Fixture.blog
          (Fixture.request "GET" [("query", "django")] []) with
  | Ok (Render _ ctx) =>
      forms.is_bound (search_form ctx) = true ∧
      forms.data (search_form ctx) !! "query" = Some "django" ∧
      forms.errors (search_form ctx) ≠ [] ∧
      forms.is_bound (forms.unbound (Fixture.SearchForm 3)) = false ∧
      search_form ctx ≠ forms.unbound (Fixture.SearchForm 3) ∧
      search_results ctx = []
  | _ => False
  end.
Proof.
  split; [reflexivity|]. unfold post_search.
  rewrite bool_decide_eq_true_2
    by (apply (bool_decide_unpack _); vm_compute; exact I).
  replace (forms.is_valid _) with false by reflexivity. cbv zeta beta iota.
  simpl search_form. simpl search_results.
  split_and!; try reflexivity.
  - intros H. vm_compute in H. discriminate H.
  - intros H. apply (f_equal forms.is_bound) in H. discriminate H.
Qed.

(** C9, amended: a Search request without a query is answered with the
    empty form, no query and no results; one whose query fails validation
    is answered with the form bound to the submitted data, which carries
    errors, no query and no results; and no Search request raises. *)
Theorem post_search_no_query
    (TrigramSimilarity : string → string → Q)
    (SearchForm : gmap string string → forms.ErrorDict * string)
    (now : datetime.t) (db : DB) (request : HttpRequest) :
  let response := post_search TrigramSimilarity SearchForm now db request in
  let form := forms.bound SearchForm (GET request) in
  ("query" ∉ dom (GET request) →
   response = Ok (Render "blog/post/search.html"
                    (mkSearchContext (forms.unbound SearchForm) None []))) ∧
  ("query" ∈ dom (GET request) → forms.is_valid form = false →
   response = Ok (Render "blog/post/search.html"
                    (mkSearchContext form None [])) ∧
   forms.errors form ≠ []) ∧
  (∃ ctx, response = Ok (Render "blog/post/search.html" ctx)).
Proof.
  cbv zeta. unfold post_search. split_and!.
  - intros Hq. by rewrite bool_decide_eq_false_2.
  - intros Hq Hv. rewrite bool_decide_eq_true_2 by done. rewrite Hv.
    split; [done|]. by apply bound_invalid_errors.
  - destruct (bool_decide _); [destruct (forms.is_valid _)|]; eexists; done.
Qed.

(** ** Runs on the sample blog *)

(** The post published on 2024-03-01 under the slug "hello" is found
    under (2024, 3, 1, "hello") and not under (2024, 3, 2, "hello"); the
    draft is not found under its own date and slug. *)
Example post_detail_hello :
  match post_detail Fixture.CommentForm Fixture.now Fixture.blog
          (Fixture.request "GET" [] []) 2024 3 1 "hello" with
  | Ok (Render _ ctx) =>
      detail_post ctx = Fixture.hello ∧
      Comment.id <$> detail_comments ctx = [Some 1] ∧
      (λ sp, (Post.id (sp_post sp), same_tags sp)) <$> detail_similar_posts ctx
        = [(7, 2%nat); (4, 2%nat); (6, 1%nat); (5, 1%nat)]
  | _ => False
  end ∧
  post_detail Fixture.CommentForm Fixture.now Fixture.blog
    (Fixture.request "GET" [] []) 2024 3 2 "hello" = Raise Http404 ∧
  post_detail Fixture.CommentForm Fixture.now Fixture.blog
    (Fixture.request "GET" [] []) 2024 3 2 "notes" = Raise Http404.
Proof. vm_compute. done. Qed.

(** Two posts with the same status, date and slug make the lookup raise
    [MultipleObjectsReturned]; the year 0 makes it raise [ValueError]. *)
Example post_detail_two_rows :
  post_detail Fixture.CommentForm Fixture.now
    (mkDB [Fixture.hello; Fixture.reposted] [] [])
    (Fixture.request "GET" [] []) 2024 3 1 "hello"
  = Raise MultipleObjectsReturned ∧
  post_detail Fixture.CommentForm Fixture.now Fixture.blog
    (Fixture.request "GET" [] []) 0 3 1 "hello"
  = Raise ValueError.
Proof. vm_compute. done. Qed.

(** A search without a query, and one with an empty query. *)
Example post_search_without_query :
  post_search Fixture.TrigramSimilarity (Fixture.SearchForm 100) Fixture.now
    Fixture.blog (Fixture.request "GET" [] [])
  = Ok (Render "blog/post/search.html"
          (mkSearchContext (forms.unbound (Fixture.SearchForm 100)) None [])) ∧
  match post_search Fixture.TrigramSimilarity (Fixture.SearchForm 100)
          Fixture.now Fixture.blog
          (Fixture.request "GET" [("query", EmptyString)] []) with
  | Ok (Render _ ctx) =>
      search_results ctx = [] ∧ search_query ctx = None ∧
      forms.errors (search_form ctx) = [("query", ["This field is required."])]
  | _ => False
  end.
Proof. vm_compute. done. Qed.

(** * Further properties *)

(** ** List: the tag *)

(** X1: a List request for a tag slug that is not empty and that no Tag
    row carries fails with NotFound, whatever the page parameter. *)
Theorem post_list_unknown_tag
    (int_of_str : string → option Z) (now : datetime.t) (db : DB)
    (request : HttpRequest) (s : string) :
  s ≠ EmptyString →
  (∀ t, t ∈ tags db → Tag.slug t ≠ s) →
  post_list int_of_str now db request (Some s) = Raise Http404.
Proof.
  intros Hs Hno. rewrite post_list_paginated. cbv zeta.
  rewrite bool_decide_eq_false_2 by done.
  assert (get_object_or_404 (λ t, Tag.slug t = s) (tags db) = Raise Http404)
    as ->; [|done].
  apply get_object_or_404_Http404. apply filter_nil_iff.
  intros t Ht. by apply Hno.
Qed.

Lemma post_list_unknown_tag_witness :
  "rust" ≠ EmptyString ∧
  (∀ t, t ∈ tags Fixture.blog → Tag.slug t ≠ "rust") ∧
  post_list Fixture.int_of_str Fixture.now Fixture.blog
    (Fixture.request "GET" [("page", "2")] []) (Some "rust") = Raise Http404.
Proof.
  assert (∀ t, t ∈ tags Fixture.blog → Tag.slug t ≠ "rust") as Hno.
  { apply Forall_forall. unfold Fixture.blog. simpl.
    repeat (apply Forall_cons; split); [..|by apply Forall_nil]; discriminate. }
  split; [discriminate|]. split; [exact Hno|].
  apply (post_list_unknown_tag Fixture.int_of_str Fixture.now Fixture.blog
           (Fixture.request "GET" [("page", "2")] []) "rust");
    [discriminate|exact Hno].
Defined.

(** X2: a List request for the slug of exactly one Tag row is answered
    with that tag in the context; the paginated list is the published
    posts that carry the tag, in their order, so every post on the page is
    a published post with that tag. *)
Theorem post_list_tagged
    (int_of_str : string → option Z) (now : datetime.t) (db : DB)
    (request : HttpRequest) (s : string) (tag : Tag.t) :
  s ≠ EmptyString →
  filter (λ t, Tag.slug t = s) (tags db) = [tag] →
  ∃ ctx,
    post_list int_of_str now db request (Some s)
      = Ok (Render "blog/post/list.html" ctx) ∧
    list_tag ctx = Some tag ∧
    Tag.slug tag = s ∧
    Paginator.object_list (Paginator.paginator (list_posts ctx))
      = filter (λ p, Tag.id tag ∈ Post.tags p) (Post_published now db) ∧
    (∀ p, p ∈ Paginator.page_object_list (list_posts ctx) →
       p ∈ posts db ∧ is_published now p ∧ Tag.id tag ∈ Post.tags p).
Proof.
  intros Hs Hone. rewrite post_list_paginated. cbv zeta.
  rewrite bool_decide_eq_false_2 by done.
  rewrite (proj2 (get_object_or_404_Ok _ _ _) Hone).
  eexists. split; [done|]. simpl. split_and!; [done| |done|].
  - by destruct (filter_singleton _ _ _ Hone) as (_ & ? & _).
  - intros p Hp. apply subseteq_take in Hp. apply subseteq_drop in Hp.
    apply list_elem_of_filter in Hp as [Htag Hp].
    apply elem_of_Post_published in Hp as [Hp Hpub]. done.
Qed.

Lemma post_list_tagged_witness :
  "search" ≠ EmptyString ∧
  filter (λ t, Tag.slug t = "search") (tags Fixture.blog)
    = [Tag.mk 3 "Search" "search"] ∧
  ∃ ctx,
    post_list Fixture.int_of_str Fixture.now Fixture.blog
      (Fixture.request "GET" [] []) (Some "search")
      = Ok (Render "blog/post/list.html" ctx) ∧
    list_tag ctx = Some (Tag.mk 3 "Search" "search").
Proof.
  split; [discriminate|]. split; [reflexivity|].
  destruct (post_list_tagged Fixture.int_of_str Fixture.now Fixture.blog
              (Fixture.request "GET" [] []) "search" (Tag.mk 3 "Search" "search"))
    as (ctx & Hr & Htag & _); [discriminate|reflexivity|].
  exists ctx. split; [exact Hr|exact Htag].
Defined.

(** X3: without a tag slug, and likewise with the empty slug, no tag is
    looked up: the context has no tag, the paginated list is all published
    posts in their order, and every post on the page is published. *)
Theorem post_list_untagged
    (int_of_str : string → option Z) (now : datetime.t) (db : DB)
    (request : HttpRequest) (tag_slug : option string) :
  tag_slug = None ∨ tag_slug = Some EmptyString →
  ∃ ctx,
    post_list int_of_str now db request tag_slug
      = Ok (Render "blog/post/list.html" ctx) ∧
    list_tag ctx = None ∧
    Paginator.object_list (Paginator.paginator (list_posts ctx))
      = Post_published now db ∧
    (∀ p, p ∈ Paginator.page_object_list (list_posts ctx) →
       p ∈ posts db ∧ is_published now p).
Proof.
  intros Hslug. rewrite post_list_paginated. cbv zeta.
  assert (∀ l n, ∀ p : Post.t,
            l = Post_published now db →
            p ∈ take 3 (drop n l) → p ∈ posts db ∧ is_published now p) as Hin.
  { intros l n p -> Hp. apply subseteq_take in Hp. apply subseteq_drop in Hp.
    by apply elem_of_Post_published in Hp. }
  destruct Hslug as [-> | ->]; [|rewrite bool_decide_eq_true_2 by done];
    (eexists; split; [done|]; simpl; split_and!; [done..|]);
    intros p Hp; by eapply Hin.
Qed.

Lemma post_list_untagged_witness :
  (Some EmptyString = None ∨ Some EmptyString = Some EmptyString) ∧
  ∃ ctx,
    post_list Fixture.int_of_str Fixture.now Fixture.blog
      (Fixture.request "GET" [] []) (Some EmptyString)
      = Ok (Render "blog/post/list.html" ctx) ∧
    list_tag ctx = None.
Proof.
  split; [right; reflexivity|].
  destruct (post_list_untagged Fixture.int_of_str Fixture.now Fixture.blog
              (Fixture.request "GET" [] []) (Some EmptyString))
    as (ctx & Hr & Htag & _); [right; reflexivity|].
  exists ctx. split; [exact Hr|exact Htag].
Defined.

(** ** List: the pages *)

(** The shape of every answer of [post_list]. *)
Lemma post_list_shape int_of_str now db request tag_slug t ctx :
  post_list int_of_str now db request tag_slug = Ok (Render t ctx) →
  ∃ (l : list Post.t) (tag : option Tag.t) (n : Z),
    ctx = mkListContext
            (Paginator.mkPage (take 3 (drop (Z.to_nat (3 * (n - 1))) l)) n
               (Paginator.mk l 3))
            tag ∧
    1 ≤ n ≤ Paginator.num_pages (Paginator.mk l 3).
Proof.
  rewrite post_list_paginated. cbv zeta.
  destruct tag_slug as [s|]; [case_bool_decide|].
  - intros [= <- <-]. do 3 eexists. split; [done|].
    apply resolved_number_range.
  - destruct (get_object_or_404 _ _) as [tag|e]; [|done].
    intros [= <- <-]. do 3 eexists. split; [done|].
    apply resolved_number_range.
  - intros [= <- <-]. do 3 eexists. split; [done|].
    apply resolved_number_range.
Qed.

Lemma num_pages_bounds {A} (l : list A) :
  3 * (Paginator.num_pages (Paginator.mk l 3) - 1)
    < Z.max 1 (Z.of_nat (length l))
    ≤ 3 * Paginator.num_pages (Paginator.mk l 3).
Proof.
  unfold Paginator.num_pages, Paginator.count.
  cbn [Paginator.per_page Paginator.object_list].
  replace (Z.of_nat (length l) - 0) with (Z.of_nat (length l)) by lia.
  pose proof (Z.div_mod (Z.max 1 (Z.of_nat (length l)) + 3 - 1) 3) as Hdm.
  pose proof (Z.mod_pos_bound (Z.max 1 (Z.of_nat (length l)) + 3 - 1) 3) as Hm.
  lia.
Qed.

(** X4: in every answer of List, a page before the last holds exactly 3
    posts and the last page holds between 1 and 3; only when there is no
    post to list is the page empty, and then it is page 1 of 1. *)
Theorem post_list_page_sizes
    (int_of_str : string → option Z) (now : datetime.t) (db : DB)
    (request : HttpRequest) (tag_slug : option string)
    (t : string) (ctx : list_context) :
  post_list int_of_str now db request tag_slug = Ok (Render t ctx) →
  let page := list_posts ctx in
  let l := Paginator.object_list (Paginator.paginator page) in
  let n := Paginator.number page in
  let last := Paginator.num_pages (Paginator.paginator page) in
  let size := length (Paginator.page_object_list page) in
  (l = [] → n = 1 ∧ last = 1 ∧ size = 0%nat) ∧
  (l ≠ [] → n < last → size = 3%nat) ∧
  (l ≠ [] → n = last → (1 ≤ size ≤ 3)%nat) ∧
  (Z.of_nat size = Z.min 3 (Z.of_nat (length l) - 3 * (n - 1))).
Proof.
  intros (l & tag & n & -> & Hn)%post_list_shape. cbv zeta. simpl.
  pose proof (num_pages_bounds l) as Hb.
  rewrite length_take, length_drop.
  assert (l = [] ↔ length l = 0%nat) as Hnil.
  { split; [by intros ->|]. by destruct l. }
  split_and!.
  - intros Hl%Hnil. rewrite Hl in *. simpl in *. lia.
  - intros Hl Hlt. assert (length l ≠ 0)%nat by (by rewrite <-Hnil). lia.
  - intros Hl ->. assert (length l ≠ 0)%nat by (by rewrite <-Hnil). lia.
  - lia.
Qed.

Lemma post_list_page_sizes_witness :
  post_list Fixture.int_of_str Fixture.now Fixture.blog
    (Fixture.request "GET" [] []) (Some "python")
  = Ok (Render "blog/post/list.html"
          (mkListContext
             (Paginator.mkPage [Fixture.hello; Fixture.django; Fixture.forms_post]
                1 (Paginator.mk [Fixture.hello; Fixture.django;
                                 Fixture.forms_post; Fixture.mail] 3))
             (Some (Tag.mk 1 "Python" "python")))) ∧
  ([Fixture.hello; Fixture.django; Fixture.forms_post; Fixture.mail] ≠ [] →
   1 < Paginator.num_pages
         (Paginator.mk [Fixture.hello; Fixture.django;
                        Fixture.forms_post; Fixture.mail] 3) →
   length [Fixture.hello; Fixture.django; Fixture.forms_post] = 3%nat).
Proof.
  assert (post_list Fixture.int_of_str Fixture.now Fixture.blog
            (Fixture.request "GET" [] []) (Some "python")
          = Ok (Render "blog/post/list.html"
                  (mkListContext
                     (Paginator.mkPage
                        [Fixture.hello; Fixture.django; Fixture.forms_post]
                        1 (Paginator.mk [Fixture.hello; Fixture.django;
                                         Fixture.forms_post; Fixture.mail] 3))
                     (Some (Tag.mk 1 "Python" "python")))))
    as H by (vm_compute; reflexivity).
  split; [exact H|].
  exact (proj1 (proj2 (post_list_page_sizes _ _ _ _ _ _ _ H))).
Defined.

(** X5: every published post can be reached: the post at position [i] of
    the published posts is shown at position [i mod 3] of page
    [i / 3 + 1], when that page is asked for. *)
Theorem post_list_reaches_every_post
    (int_of_str : string → option Z) (now : datetime.t) (db : DB)
    (request : HttpRequest) (i : nat) (p : Post.t) (s : string) :
  Post_published now db !! i = Some p →
  GET request !! "page" = Some s →
  int_of_str s = Some (Z.of_nat (i / 3) + 1) →
  ∃ ctx,
    post_list int_of_str now db request None
      = Ok (Render "blog/post/list.html" ctx) ∧
    Paginator.number (list_posts ctx) = Z.of_nat (i / 3) + 1 ∧
    Paginator.page_object_list (list_posts ctx) !! (i mod 3)%nat = Some p.
Proof.
  intros Hi Hpage Hint. rewrite post_list_paginated. cbv zeta.
  rewrite Hpage. unfold resolved_number. cbn [Paginator.to_int]. rewrite Hint.
  pose proof (lookup_lt_Some _ _ _ Hi) as Hlt.
  pose proof (num_pages_bounds (Post_published now db)) as Hb.
  pose proof (Nat.div_mod_eq i 3) as Hdm.
  assert (i mod 3 < 3)%nat as Hmod by (apply Nat.mod_upper_bound; lia).
  rewrite bool_decide_eq_true_2 by lia.
  eexists. split; [done|].
  cbn [list_posts Paginator.number Paginator.page_object_list].
  split; [done|].
  rewrite lookup_take_lt by lia. rewrite lookup_drop.
  replace (Z.to_nat (3 * (Z.of_nat (i / 3) + 1 - 1)) + i mod 3)%nat with i
    by lia.
  done.
Qed.

Lemma post_list_reaches_every_post_witness :
  Post_published Fixture.now Fixture.blog !! 4%nat = Some Fixture.mail ∧
  GET (Fixture.request "GET" [("page", "2")] []) !! "page" = Some "2" ∧
  Fixture.int_of_str "2" = Some (Z.of_nat (4 / 3) + 1) ∧
  ∃ ctx,
    post_list Fixture.int_of_str Fixture.now Fixture.blog
      (Fixture.request "GET" [("page", "2")] []) None
      = Ok (Render "blog/post/list.html" ctx) ∧
    Paginator.number (list_posts ctx) = Z.of_nat (4 / 3) + 1 ∧
    Paginator.page_object_list (list_posts ctx) !! (4 mod 3)%nat
      = Some Fixture.mail.
Proof.
  split_and!; [reflexivity..|].
  apply (post_list_reaches_every_post Fixture.int_of_str Fixture.now
           Fixture.blog (Fixture.request "GET" [("page", "2")] []) 4
           Fixture.mail "2"); reflexivity.
Defined.

(** ** Post Detail: comments and similar posts *)

(** X6: the comments of a Post Detail answer are the active comments of
    the displayed post, each once per row of the Comment table, in the
    order of their creation time; a comment that moderation has set
    inactive, or that belongs to another post, is never among them.  The
    comment form of the answer is the empty form. *)
Theorem post_detail_comments
    (CommentForm : gmap string string → forms.ErrorDict * CommentData)
    (now : datetime.t) (db : DB) (request : HttpRequest)
    (year month day : Z) (post_slug : string) (t : string) (ctx : detail_context) :
  post_detail CommentForm now db request year month day post_slug
    = Ok (Render t ctx) →
  (∀ c, c ∈ detail_comments ctx ↔
        c ∈ comments db ∧
        Comment.post c = Some (Post.id (detail_post ctx)) ∧
        Comment.active c = true) ∧
  detail_comments ctx
    ≡ₚ filter (λ c, Comment.post c = Some (Post.id (detail_post ctx)) ∧
                    Comment.active c = true) (comments db) ∧
  (∀ i j a b, (i < j)%nat →
     detail_comments ctx !! i = Some a → detail_comments ctx !! j = Some b →
     created_le a b) ∧
  detail_form ctx = forms.unbound CommentForm ∧
  forms.is_bound (detail_form ctx) = false ∧
  forms.errors (detail_form ctx) = [].
Proof.
  rewrite post_detail_unfold.
  destruct (detail_get _ _ _ _ _) as [p|e] eqn:G; [|done].
  intros [= <- <-]. simpl. split_and!; [| | |done..].
  - intros c. rewrite merge_sort_Permutation, list_elem_of_filter. tauto.
  - apply merge_sort_Permutation.
  - intros i j a b Hij Ha Hb.
    eapply (StronglySorted_lookup created_le); [|done..].
    apply StronglySorted_merge_sort; apply _.
Qed.

Lemma post_detail_comments_witness :
  post_detail Fixture.CommentForm Fixture.now Fixture.thread
    (Fixture.request "GET" [] []) 2024 3 1 "hello"
  = Ok (Render "blog/post/detail.html"
          (mkDetailContext Fixture.hello
             [Fixture.written_first; Fixture.written_second]
             (forms.unbound Fixture.CommentForm) [])) ∧
  comments Fixture.thread = [Fixture.written_second; Fixture.written_first] ∧
  created_le Fixture.written_first Fixture.written_second.
Proof.
  assert (post_detail Fixture.CommentForm Fixture.now Fixture.thread
            (Fixture.request "GET" [] []) 2024 3 1 "hello"
          = Ok (Render "blog/post/detail.html"
                  (mkDetailContext Fixture.hello
                     [Fixture.written_first; Fixture.written_second]
                     (forms.unbound Fixture.CommentForm) [])))
    as H by (vm_compute; reflexivity).
  split; [exact H|]. split; [reflexivity|].
  exact (proj1 (proj2 (proj2 (post_detail_comments _ _ _ _ _ _ _ _ _ _ H)))
           0%nat 1%nat _ _ (Nat.lt_0_1) eq_refl eq_refl).
Defined.

(** X7: Comment followed by Post Detail.  After a valid comment has been
    posted on a post, the Post Detail page of that post shows the comments
    it showed before together with the new comment, each once, in the
    order of their creation time, and the same post, form and similar
    posts as before. *)
Theorem post_comment_then_detail
    (CommentForm : gmap string string → forms.ErrorDict * CommentData)
    (now now' : datetime.t) (db : DB) (request request' : HttpRequest)
    (post_id : Z) (post : Post.t)
    (year month day : Z) (post_slug : string) (t : string) (ctx : detail_context) :
  method request = "POST" →
  get_object_or_404 (id_lookup post_id) (Post_objects db) = Ok post →
  forms.is_valid (forms.bound CommentForm (POST request)) = true →
  post_detail CommentForm now' db request' year month day post_slug
    = Ok (Render t ctx) →
  detail_post ctx = post →
  let db' := (post_comment CommentForm now post_id request db).2 in
  let c := new_comment now db post
             (forms.cleaned_data (forms.bound CommentForm (POST request))) in
  ∃ comments',
    post_detail CommentForm now' db' request' year month day post_slug
      = Ok (Render t
              (mkDetailContext post comments'
                 (detail_form ctx) (detail_similar_posts ctx))) ∧
    comments' ≡ₚ detail_comments ctx ++ [c] ∧
    (∀ i j a b, (i < j)%nat →
       comments' !! i = Some a → comments' !! j = Some b → created_le a b).
Proof.
  intros Hm G Hv Hd Hpost. cbv zeta.
  rewrite (post_comment_fetched _ _ _ _ _ _ Hm G). cbv zeta. rewrite Hv.
  revert Hd. rewrite !post_detail_unfold. unfold detail_get, Post_objects.
  cbn [snd posts comments].
  destruct (year_lookup_bounds year) as [u|e]; [|done]. simpl.
  destruct (get_object_or_404 (detail_lookup year month day post_slug)
              (posts db)) as [p|e]; [|done].
  intros [= <- <-]. simpl in Hpost. subst p. cbn [detail_comments
    detail_form detail_similar_posts].
  eexists. split; [reflexivity|]. split.
  - rewrite !merge_sort_Permutation, filter_app.
    rewrite filter_cons, decide_True by done. done.
  - intros i j a b Hij Ha Hb.
    eapply (StronglySorted_lookup created_le); [|done..].
    apply StronglySorted_merge_sort; apply _.
Qed.

Lemma post_comment_then_detail_witness :
  method Fixture.comment_request = "POST" ∧
  get_object_or_404 (id_lookup 1) (Post_objects Fixture.blog) = Ok Fixture.hello ∧
  forms.is_valid (forms.bound Fixture.CommentForm (POST Fixture.comment_request))
    = true ∧
  ∃ comments',
    post_detail Fixture.CommentForm Fixture.now
      (post_comment Fixture.CommentForm Fixture.now 1
         Fixture.comment_request Fixture.blog).2
      (Fixture.request "GET" [] []) 2024 3 1 "hello"
    = Ok (Render "blog/post/detail.html"
            (mkDetailContext Fixture.hello comments'
               (forms.unbound Fixture.CommentForm)
               [mkSimilar Fixture.mail 2; mkSimilar Fixture.django 2;
                mkSimilar Fixture.forms_post 1; mkSimilar Fixture.orm 1])) ∧
    Comment.body <$> comments' ≡ₚ ["Nice"; "Hi"].
Proof.
  split_and!; [reflexivity..|].
  assert (post_detail Fixture.CommentForm Fixture.now Fixture.blog
            (Fixture.request "GET" [] []) 2024 3 1 "hello"
          = Ok (Render "blog/post/detail.html"
                  (mkDetailContext Fixture.hello
                     [Comment.mk (Some 1) (Some 1) "Ann" "ann@example.com" "Nice"
                        (Some (Fixture.date 2024 3 5)) true]
                     (forms.unbound Fixture.CommentForm)
                     [mkSimilar Fixture.mail 2; mkSimilar Fixture.django 2;
                      mkSimilar Fixture.forms_post 1; mkSimilar Fixture.orm 1])))
    as H by (vm_compute; reflexivity).
  destruct (post_comment_then_detail Fixture.CommentForm Fixture.now Fixture.now
              Fixture.blog Fixture.comment_request (Fixture.request "GET" [] [])
              1 Fixture.hello 2024 3 1 "hello" _ _
              eq_refl eq_refl eq_refl H eq_refl)
    as (comments' & Hd & Hperm & _).
  exists comments'. split; [exact Hd|].
  rewrite Hperm. reflexivity.
Defined.

(** X8: Comment never writes anything but one comment.  Whatever the
    request, the Post and Tag tables are left as they were and the rows of
    the Comment table are kept in place; either nothing is added, or
    exactly one row is appended, and then it is the comment handed back in
    the answer. *)
Theorem post_comment_frame
    (CommentForm : gmap string string → forms.ErrorDict * CommentData)
    (now : datetime.t) (db db' : DB) (request : HttpRequest) (post_id : Z)
    (r : result (HttpResponse comment_context)) :
  post_comment CommentForm now post_id request db = (r, db') →
  posts db' = posts db ∧
  tags db' = tags db ∧
  (comments db' = comments db ∧
   match r with
   | Ok (Render _ ctx) => comment_comment ctx = None
   | _ => True
   end
   ∨
   ∃ c ctx, comments db' = comments db ++ [c] ∧
            r = Ok (Render "blog/post/comment.html" ctx) ∧
            comment_comment ctx = Some c ∧
            Comment.post c = Some (Post.id (comment_post ctx))).
Proof.
  destruct (decide (method request = "POST")) as [Hm|Hm].
  - destruct (get_object_or_404 (id_lookup post_id) (posts db))
      as [post|e] eqn:G.
    + rewrite (post_comment_fetched _ _ _ _ _ _ Hm G). cbv zeta.
      destruct (forms.is_valid _); intros [= <- <-]; simpl.
      * split_and!; [done..|]. right. do 2 eexists. done.
      * split_and!; [done..|]. by left.
    + rewrite (post_comment_not_fetched _ _ _ _ _ _ Hm G).
      intros [= <- <-]. split_and!; [done..|]. by left.
  - rewrite post_comment_not_POST by done.
    intros [= <- <-]. split_and!; [done..|]. by left.
Qed.

Lemma post_comment_frame_witness :
  post_comment Fixture.CommentForm Fixture.now 1
    Fixture.nameless_comment_request Fixture.blog
  = (Ok (Render "blog/post/comment.html"
           (mkCommentContext Fixture.hello
              (forms.bound Fixture.CommentForm
                 (POST Fixture.nameless_comment_request))
              None)),
     Fixture.blog) ∧
  posts Fixture.blog = posts Fixture.blog.
Proof.
  assert (post_comment Fixture.CommentForm Fixture.now 1
            Fixture.nameless_comment_request Fixture.blog
          = (Ok (Render "blog/post/comment.html"
                   (mkCommentContext Fixture.hello
                      (forms.bound Fixture.CommentForm
                         (POST Fixture.nameless_comment_request))
                      None)),
             Fixture.blog)) as H by (vm_compute; reflexivity).
  split; [exact H|].
  exact (proj1 (post_comment_frame _ _ _ _ _ _ _ H)).
Defined.

(** X9: the similar posts are the best-ranked candidates.  A published
    post other than the displayed one that has a tag in common with it is
    either listed, or the list is full (4 entries) and every listed entry
    ranks at least as high: it has more common tags, or as many and a
    publish timestamp that is not earlier. *)
Theorem similar_posts_best
    (CommentForm : gmap string string → forms.ErrorDict * CommentData)
    (now : datetime.t) (db : DB) (request : HttpRequest)
    (year month day : Z) (post_slug : string) (t : string) (ctx : detail_context)
    (q : Post.t) :
  post_detail CommentForm now db request year month day post_slug
    = Ok (Render t ctx) →
  q ∈ posts db → is_published now q →
  Post.id q ≠ Post.id (detail_post ctx) →
  (∃ tag, tag ∈ Post.tags q ∧ tag ∈ Post.tags (detail_post ctx)) →
  let shared := size (Post.tags q ∩ Post.tags (detail_post ctx)) in
  mkSimilar q shared ∈ detail_similar_posts ctx
  ∨
  (length (detail_similar_posts ctx) = 4%nat ∧
   ∀ sp, sp ∈ detail_similar_posts ctx →
     (shared < same_tags sp)%nat ∨
     (same_tags sp = shared ∧
      datetime.le (Post.publish q) (Post.publish (sp_post sp)))).
Proof.
  rewrite post_detail_unfold.
  destruct (detail_get _ _ _ _ _) as [p|e] eqn:G; [|done].
  intros [= <- <-] Hq Hpub Hid Htag. simpl in *.
  unfold similar_posts_of.
  set (l := merge_sort same_tags_publish_desc _).
  assert (mkSimilar q (size (Post.tags q ∩ Post.tags p)) ∈ l) as Hin.
  { subst l. rewrite merge_sort_Permutation. apply list_elem_of_fmap.
    exists q. split; [by rewrite count_tags_shared|].
    apply list_elem_of_filter. split; [done|].
    apply list_elem_of_filter. split; [by apply tags_in_shared|].
    by apply elem_of_Post_published. }
  assert (StronglySorted same_tags_publish_desc l) as Hsorted.
  { subst l. apply StronglySorted_merge_sort; apply _. }
  clearbody l. rewrite <-(take_drop 4 l) in Hin, Hsorted.
  apply elem_of_app in Hin as [Hin|Hin]; [by left|right].
  split.
  - rewrite length_take. apply list_elem_of_lookup_1 in Hin as [i Hi].
    apply lookup_lt_Some in Hi. rewrite length_drop in Hi. lia.
  - intros sp Hsp.
    destruct (StronglySorted_app_1_elem_of _ _ _ _ _ Hsorted Hsp Hin)
      as [Hlt|[Heq Hle]]; simpl in *; [by left|right; done].
Qed.

Lemma similar_posts_best_witness :
  post_detail Fixture.CommentForm Fixture.now Fixture.blog
    (Fixture.request "GET" [] []) 2030 1 1 "soon"
  = Ok (Render "blog/post/detail.html"
          (mkDetailContext Fixture.scheduled []
             (forms.unbound Fixture.CommentForm)
             [mkSimilar Fixture.mail 1; mkSimilar Fixture.orm 1;
              mkSimilar Fixture.django 1; mkSimilar Fixture.hello 1])) ∧
  Fixture.hello ∈ posts Fixture.blog ∧
  is_published Fixture.now Fixture.hello ∧
  Post.id Fixture.hello ≠ Post.id Fixture.scheduled ∧
  (∃ tag, tag ∈ Post.tags Fixture.hello ∧ tag ∈ Post.tags Fixture.scheduled) ∧
  (mkSimilar Fixture.hello
     (size (Post.tags Fixture.hello ∩ Post.tags Fixture.scheduled))
     ∈ [mkSimilar Fixture.mail 1; mkSimilar Fixture.orm 1;
        mkSimilar Fixture.django 1; mkSimilar Fixture.hello 1]
   ∨
   (length [mkSimilar Fixture.mail 1; mkSimilar Fixture.orm 1;
            mkSimilar Fixture.django 1; mkSimilar Fixture.hello 1] = 4%nat ∧
    ∀ sp, sp ∈ [mkSimilar Fixture.mail 1; mkSimilar Fixture.orm 1;
                mkSimilar Fixture.django 1; mkSimilar Fixture.hello 1] →
      (size (Post.tags Fixture.hello ∩ Post.tags Fixture.scheduled)
         < same_tags sp)%nat ∨
      (same_tags sp
         = size (Post.tags Fixture.hello ∩ Post.tags Fixture.scheduled) ∧
       datetime.le (Post.publish Fixture.hello) (Post.publish (sp_post sp))))).
Proof.
  assert (post_detail Fixture.CommentForm Fixture.now Fixture.blog
            (Fixture.request "GET" [] []) 2030 1 1 "soon"
          = Ok (Render "blog/post/detail.html"
                  (mkDetailContext Fixture.scheduled []
                     (forms.unbound Fixture.CommentForm)
                     [mkSimilar Fixture.mail 1; mkSimilar Fixture.orm 1;
                      mkSimilar Fixture.django 1; mkSimilar Fixture.hello 1])))
    as H by (vm_compute; reflexivity).
  assert (Fixture.hello ∈ posts Fixture.blog) as Hin by left.
  assert (is_published Fixture.now Fixture.hello) as Hpub
    by (split; reflexivity).
  assert (Post.id Fixture.hello ≠ Post.id Fixture.scheduled) as Hid
    by discriminate.
  assert (∃ tag, tag ∈ Post.tags Fixture.hello ∧
                 tag ∈ Post.tags Fixture.scheduled) as Htag.
  { exists 2. split; apply (bool_decide_unpack _); vm_compute; exact I. }
  split_and!; [exact H|exact Hin|exact Hpub|exact Hid|exact Htag|].
  exact (similar_posts_best _ _ _ _ _ _ _ _ _ _ _ H Hin Hpub Hid Htag).
Defined.

(** X10: how many similar posts are listed: all candidates when there are
    at most 4 of them, and 4 otherwise.  In particular a displayed post
    without tags has no similar posts. *)
Theorem similar_posts_count
    (CommentForm : gmap string string → forms.ErrorDict * CommentData)
    (now : datetime.t) (db : DB) (request : HttpRequest)
    (year month day : Z) (post_slug : string) (t : string) (ctx : detail_context) :
  post_detail CommentForm now db request year month day post_slug
    = Ok (Render t ctx) →
  let post := detail_post ctx in
  let candidates :=
    filter (λ q, is_published now q ∧ Post.id q ≠ Post.id post ∧
                 ∃ tag, tag ∈ Post.tags q ∧ tag ∈ Post.tags post)
      (posts db) in
  length (detail_similar_posts ctx) = (4 `min` length candidates)%nat ∧
  (Post.tags post = ∅ → detail_similar_posts ctx = []).
Proof.
  rewrite post_detail_unfold.
  destruct (detail_get _ _ _ _ _) as [p|e] eqn:G; [|done].
  intros [= <- <-]. simpl. unfold similar_posts_of, Post_published.
  assert (filter (λ q, Post.id q ≠ Post.id p)
            (filter (tags_in (Post.tags p)) (filter (is_published now) (posts db)))
          = filter (λ q, is_published now q ∧ Post.id q ≠ Post.id p ∧
                         ∃ tag, tag ∈ Post.tags q ∧ tag ∈ Post.tags p)
              (posts db)) as Hcand.
  { induction (posts db) as [|q l IH]; [done|].
    rewrite !filter_cons.
    destruct (decide (is_published now q)) as [Hpub|Hpub].
    - rewrite filter_cons.
      destruct (decide (tags_in (Post.tags p) q)) as [Htag|Htag].
      + rewrite filter_cons.
        destruct (decide (Post.id q ≠ Post.id p)) as [Hid|Hid].
        * rewrite decide_True; [by rewrite IH|].
          by apply tags_in_shared in Htag.
        * rewrite decide_False; [done|]. intros (_ & ? & _). done.
      + rewrite decide_False; [done|]. intros (_ & _ & ?%tags_in_shared). done.
    - rewrite decide_False; [done|]. intros (? & _). done. }
  rewrite Hcand. split.
  - rewrite length_take, merge_sort_Permutation, length_fmap. done.
  - intros Hempty.
    assert (filter (λ q, is_published now q ∧ Post.id q ≠ Post.id p ∧
                         ∃ tag, tag ∈ Post.tags q ∧ tag ∈ Post.tags p)
              (posts db) = []) as ->; [|done].
    apply filter_nil_iff. intros q _ (_ & _ & tag & _ & Htag).
    rewrite Hempty in Htag. by apply not_elem_of_empty in Htag.
Qed.

Lemma similar_posts_count_witness :
  post_detail Fixture.CommentForm Fixture.now Fixture.blog
    (Fixture.request "GET" [] []) 2024 4 5 "paging"
  = Ok (Render "blog/post/detail.html"
          (mkDetailContext Fixture.paging []
             (forms.unbound Fixture.CommentForm) [])) ∧
  length ([] : list similar_post)
  = (4 `min` length
       (filter (λ q, is_published Fixture.now q ∧
                     Post.id q ≠ Post.id Fixture.paging ∧
                     ∃ tag, tag ∈ Post.tags q ∧ tag ∈ Post.tags Fixture.paging)
          (posts Fixture.blog)))%nat.
Proof.
  assert (post_detail Fixture.CommentForm Fixture.now Fixture.blog
            (Fixture.request "GET" [] []) 2024 4 5 "paging"
          = Ok (Render "blog/post/detail.html"
                  (mkDetailContext Fixture.paging []
                     (forms.unbound Fixture.CommentForm) [])))
    as H by (vm_compute; reflexivity).
  split; [exact H|].
  exact (proj1 (similar_posts_count _ _ _ _ _ _ _ _ _ _ H)).
Defined.

(** ** Share *)

(** X11: a Share request that is not a POST sends nothing, whatever form
    data it carries: for a post that the lookup finds it is answered with
    the empty form, which has no errors, and is not marked sent; for any
    other id it fails with what the lookup raises. *)
Theorem post_share_not_POST
    (get_absolute_url : Post.t → string)
    (build_absolute_uri : HttpRequest → string → string)
    (EmailPostForm : gmap string string → forms.ErrorDict * EmailPostData)
    (transport_accepts : EmailMessage → bool)
    (db : DB) (request : HttpRequest) (post_id : Z)
    (outbox : list EmailMessage) :
  method request ≠ "POST" →
  let share :=
    post_share get_absolute_url build_absolute_uri EmailPostForm
      transport_accepts db request post_id outbox in
  share.2 = outbox ∧
  match get_object_or_404 (id_lookup post_id) (Post_objects db) with
  | Ok post =>
      share.1 = Ok (Render "blog/post/share.html"
                      (mkShareContext post (forms.unbound EmailPostForm) false))
  | Raise e => share.1 = Raise e
  end ∧
  forms.errors (forms.unbound EmailPostForm) = [].
Proof.
  intros Hm. cbv zeta. unfold Post_objects.
  destruct (get_object_or_404 (id_lookup post_id) (posts db)) as [post|e] eqn:G.
  - rewrite (post_share_fetched _ _ _ _ _ _ _ _ _ G).
    rewrite bool_decide_eq_false_2 by done. done.
  - rewrite (post_share_not_fetched _ _ _ _ _ _ _ _ _ G). done.
Qed.

Lemma post_share_not_POST_witness :
  method (Fixture.request "GET" []
            [("name", "Ann"); ("email", "ann@example.com");
             ("to", "bob@example.com")]) ≠ "POST" ∧
  (post_share Fixture.get_absolute_url Fixture.build_absolute_uri
     Fixture.EmailPostForm (λ _, true) Fixture.blog
     (Fixture.request "GET" []
        [("name", "Ann"); ("email", "ann@example.com");
         ("to", "bob@example.com")]) 1 []).2 = [].
Proof.
  split; [discriminate|].
  apply (post_share_not_POST Fixture.get_absolute_url
           Fixture.build_absolute_uri Fixture.EmailPostForm (λ _, true)
           Fixture.blog
           (Fixture.request "GET" []
              [("name", "Ann"); ("email", "ann@example.com");
               ("to", "bob@example.com")]) 1 []).
  discriminate.
Defined.

(** X12: the text of the message.  When a Share POST sends, the subject
    is the sender's name, " recommends you read " and the title of the
    post; the body is "Read ", the title, " at ", the absolute URL, an
    empty line, the sender's name, "'s comments: " and the comment. *)
Theorem post_share_template
    (get_absolute_url : Post.t → string)
    (build_absolute_uri : HttpRequest → string → string)
    (EmailPostForm : gmap string string → forms.ErrorDict * EmailPostData)
    (transport_accepts : EmailMessage → bool)
    (db : DB) (request : HttpRequest) (post_id : Z)
    (outbox outbox' : list EmailMessage) (t : string) (ctx : share_context) :
  post_share get_absolute_url build_absolute_uri EmailPostForm
    transport_accepts db request post_id outbox
  = (Ok (Render t ctx), outbox') →
  share_sent ctx = true →
  let cd := forms.cleaned_data (forms.bound EmailPostForm (POST request)) in
  let post := share_post ctx in
  ∃ m, outbox' = outbox ++ [m] ∧
       subject m = cd_name cd +:+ " recommends you read " +:+ Post.title post ∧
       message m =
         "Read " +:+ Post.title post +:+ " at " +:+
         build_absolute_uri request (get_absolute_url post) +:+ LF +:+ LF +:+
         cd_name cd +:+ "'s comments: " +:+ cd_comments cd ∧
       recipient_list m = [cd_to cd] ∧
       get_object_or_404 (id_lookup post_id) (Post_objects db) = Ok post ∧
       method request = "POST" ∧
       forms.is_valid (share_form ctx) = true.
Proof.
  unfold Post_objects.
  destruct (get_object_or_404 (id_lookup post_id) (posts db)) as [post|e] eqn:G.
  - rewrite (post_share_fetched _ _ _ _ _ _ _ _ _ G). cbv zeta.
    case_bool_decide as Hm; [|by intros [= <- <- <-]].
    destruct (forms.is_valid _) eqn:Hv; [|by intros [= <- <- <-]].
    destruct (transport_accepts _); [|done].
    intros [= <- <- <-] _. eexists. split; [done|]. simpl. done.
  - by rewrite (post_share_not_fetched _ _ _ _ _ _ _ _ _ G).
Qed.

Lemma post_share_template_witness :
  post_share Fixture.get_absolute_url Fixture.build_absolute_uri
    Fixture.EmailPostForm (λ _, true) Fixture.blog Fixture.share_request 1 []
  = (Ok (Render "blog/post/share.html"
           (mkShareContext Fixture.hello
              (forms.bound Fixture.EmailPostForm (POST Fixture.share_request))
              true)),
     [share_email Fixture.get_absolute_url Fixture.build_absolute_uri
        Fixture.share_request Fixture.hello
        (mkEmailPostData "Ann" "ann@example.com" "bob@example.com" "read it")]) ∧
  ∃ m, [share_email Fixture.get_absolute_url Fixture.build_absolute_uri
          Fixture.share_request Fixture.hello
          (mkEmailPostData "Ann" "ann@example.com" "bob@example.com" "read it")]
       = [] ++ [m] ∧
       subject m = "Ann recommends you read Hello Django".
Proof.
  assert (post_share Fixture.get_absolute_url Fixture.build_absolute_uri
            Fixture.EmailPostForm (λ _, true) Fixture.blog
            Fixture.share_request 1 []
          = (Ok (Render "blog/post/share.html"
                   (mkShareContext Fixture.hello
                      (forms.bound Fixture.EmailPostForm
                         (POST Fixture.share_request))
                      true)),
             [share_email Fixture.get_absolute_url Fixture.build_absolute_uri
                Fixture.share_request Fixture.hello
                (mkEmailPostData "Ann" "ann@example.com" "bob@example.com"
                   "read it")])) as H by (vm_compute; reflexivity).
  split; [exact H|].
  destruct (post_share_template _ _ _ _ _ _ _ _ _ _ _ H eq_refl)
    as (m & Hout & Hsub & _).
  exists m. split; [exact Hout|]. rewrite Hsub. vm_compute. reflexivity.
Defined.

(** X13: a failure of the mail transport is not caught.  A valid Share
    POST for a post that the lookup finds raises the transport's exception
    exactly when the transport refuses the message; nothing is then
    rendered or marked sent, and the outbox is as before. *)
Theorem post_share_transport_error
    (get_absolute_url : Post.t → string)
    (build_absolute_uri : HttpRequest → string → string)
    (EmailPostForm : gmap string string → forms.ErrorDict * EmailPostData)
    (transport_accepts : EmailMessage → bool)
    (db : DB) (request : HttpRequest) (post_id : Z) (post : Post.t)
    (outbox : list EmailMessage) :
  method request = "POST" →
  get_object_or_404 (id_lookup post_id) (Post_objects db) = Ok post →
  forms.is_valid (forms.bound EmailPostForm (POST request)) = true →
  (transport_accepts
     (share_email get_absolute_url build_absolute_uri request post
        (forms.cleaned_data (forms.bound EmailPostForm (POST request)))) = false
   ↔
   post_share get_absolute_url build_absolute_uri EmailPostForm
     transport_accepts db request post_id outbox
   = (Raise SMTPException, outbox)).
Proof.
  intros Hm G Hv. split.
  - by apply post_share_transport_failure.
  - rewrite (post_share_fetched _ _ _ _ _ _ _ _ _ G).
    rewrite bool_decide_eq_true_2 by done. cbv zeta. rewrite Hv.
    by destruct (transport_accepts _).
Qed.

Lemma post_share_transport_error_witness :
  method Fixture.share_request = "POST" ∧
  get_object_or_404 (id_lookup 1) (Post_objects Fixture.blog) = Ok Fixture.hello ∧
  forms.is_valid (forms.bound Fixture.EmailPostForm (POST Fixture.share_request))
    = true ∧
  post_share Fixture.get_absolute_url Fixture.build_absolute_uri
    Fixture.EmailPostForm (λ _, false) Fixture.blog Fixture.share_request 1 []
  = (Raise SMTPException, []).
Proof.
  split_and!; [reflexivity..|].
  apply (post_share_transport_error Fixture.get_absolute_url
           Fixture.build_absolute_uri Fixture.EmailPostForm (λ _, false)
           Fixture.blog Fixture.share_request 1 Fixture.hello []);
    reflexivity.
Defined.

(** ** Post Detail: the number of matching rows *)



(** ** Search: the query of the answer *)

(** X15: the answer of Search carries a query exactly when the query
    parameter is present and valid, and then it is the cleaned query of
    the form.  A valid query that no published post matches with a score
    of 0.1 or more is answered with that query and an empty result
    list. *)
Theorem post_search_query
    (TrigramSimilarity : string → string → Q)
    (SearchForm : gmap string string → forms.ErrorDict * string)
    (now : datetime.t) (db : DB) (request : HttpRequest)
    (t : string) (ctx : search_context) :
  post_search TrigramSimilarity SearchForm now db request = Ok (Render t ctx) →
  let form := forms.bound SearchForm (GET request) in
  let valid := "query" ∈ dom (GET request) ∧ forms.is_valid form = true in
  (valid → search_query ctx = Some (forms.cleaned_data form) ∧
           search_form ctx = form ∧ forms.errors (search_form ctx) = []) ∧
  (¬ valid → search_query ctx = None ∧ search_results ctx = []) ∧
  ((∀ p, p ∈ Post_published now db →
      ¬ (1 # 10 <= query_similarity TrigramSimilarity
                     (forms.cleaned_data form) p)%Q) →
   search_results ctx = []).
Proof.
  unfold post_search. cbv zeta.
  case_bool_decide as Hq; [destruct (forms.is_valid _) eqn:Hv|];
    intros [= <- <-]; simpl.
  - split_and!.
    + intros _. split_and!; [done..|]. by apply bound_valid_errors.
    + intros Hn. destruct Hn. done.
    + intros Hno.
      assert (filter (λ r, (similarity_gte <= similarity r)%Q)
                ((λ p, mkSearchResult p
                         (query_similarity TrigramSimilarity
                            (forms.cleaned_data
                               (forms.bound SearchForm (GET request))) p))
                   <$> Post_published now db) = []) as ->; [|done].
      apply filter_nil_iff. intros r (p & -> & Hp)%list_elem_of_fmap.
      simpl. intros Hs%query_similarity_gte. by apply (Hno p).
  - split_and!; [|done..]. intros [_ ?]. congruence.
  - split_and!; [|done..]. intros [? _]. done.
Qed.

Lemma post_search_query_witness :
  post_search Fixture.TrigramSimilarity (Fixture.SearchForm 100) Fixture.now
    Fixture.blog (Fixture.request "GET" [("query", "zebra")] [])
  = Ok (Render "blog/post/search.html"
          (mkSearchContext
             (forms.bound (Fixture.SearchForm 100)
                (GET (Fixture.request "GET" [("query", "zebra")] [])))
             (Some "zebra") [])) ∧
  ("query" ∈ dom (GET (Fixture.request "GET" [("query", "zebra")] [])) ∧
   forms.is_valid
     (forms.bound (Fixture.SearchForm 100)
        (GET (Fixture.request "GET" [("query", "zebra")] []))) = true) ∧
  Some "zebra"
  = Some (forms.cleaned_data
            (forms.bound (Fixture.SearchForm 100)
               (GET (Fixture.request "GET" [("query", "zebra")] [])))).
Proof.
  assert (post_search Fixture.TrigramSimilarity (Fixture.SearchForm 100)
            Fixture.now Fixture.blog
            (Fixture.request "GET" [("query", "zebra")] [])
          = Ok (Render "blog/post/search.html"
                  (mkSearchContext
                     (forms.bound (Fixture.SearchForm 100)
                        (GET (Fixture.request "GET" [("query", "zebra")] [])))
                     (Some "zebra") [])))
    as H by (vm_compute; reflexivity).
  assert ("query" ∈ dom (GET (Fixture.request "GET" [("query", "zebra")] [])) ∧
          forms.is_valid
            (forms.bound (Fixture.SearchForm 100)
               (GET (Fixture.request "GET" [("query", "zebra")] []))) = true)
    as Hvalid.
  { split; [apply (bool_decide_unpack _); vm_compute; exact I|reflexivity]. }
  split; [exact H|]. split; [exact Hvalid|].
  exact (proj1 (proj1 (post_search_query _ _ _ _ _ _ _ H) Hvalid)).
Defined.

(** ** From one view to the next *)

Lemma filter_unique {A} (P : A → Prop) `{∀ x, Decision (P x)} (l : list A) p :
  NoDup l → p ∈ l → P p → (∀ q, q ∈ l → P q → q = p) → filter P l = [p].
Proof.
  induction l as [|a l IH]; intros Hnd Hp HP Huniq.
  - by apply not_elem_of_nil in Hp.
  - apply NoDup_cons in Hnd as [Ha Hnd]. rewrite filter_cons.
    apply elem_of_cons in Hp as [->|Hp].
    + rewrite decide_True by done. f_equal.
      apply filter_nil_iff. intros q Hq HPq.
      apply Ha. rewrite <-(Huniq q); [done| |done]. by right.
    + rewrite decide_False.
      * apply IH; [done..|]. intros q Hq. apply Huniq. by right.
      * intros HPa. apply Ha. rewrite (Huniq a); [done| |done]. left.
Qed.

Lemma post_list_page_published int_of_str now db request tag_slug t ctx p :
  post_list int_of_str now db request tag_slug = Ok (Render t ctx) →
  p ∈ Paginator.page_object_list (list_posts ctx) →
  p ∈ Post_published now db.
Proof.
  rewrite post_list_paginated. cbv zeta.
  destruct tag_slug as [s|]; [case_bool_decide|].
  - intros [= <- <-] Hp. simpl in Hp.
    by apply subseteq_take, subseteq_drop in Hp.
  - destruct (get_object_or_404 _ _) as [tag|e]; [|done].
    intros [= <- <-] Hp. simpl in Hp.
    apply subseteq_take, subseteq_drop in Hp.
    by apply list_elem_of_filter in Hp as [_ Hp].
  - intros [= <- <-] Hp. simpl in Hp.
    by apply subseteq_take, subseteq_drop in Hp.
Qed.

(** X16: List followed by Post Detail.  When the ids of the Post table
    are unique and no other row of the table, whatever its status and
    whether or not its publish time has come, has the publish date and the
    slug of a post that List shows, Post Detail finds that post under its
    own publish year, month, day and slug.  The lookup also finds it in
    any selection of rows of the table that holds the post, so the result
    does not depend on which rows the model's default manager offers.
    The year of a time stamp is from 1 to 9999, as in Python. *)
Theorem post_list_then_detail
    (int_of_str : string → option Z)
    (CommentForm : gmap string string → forms.ErrorDict * CommentData)
    (now : datetime.t) (db : DB) (request request' : HttpRequest)
    (tag_slug : option string) (t : string) (ctx : list_context) (p : Post.t) :
  NoDup (Post.id <$> posts db) →
  1 ≤ datetime.year (Post.publish p) ≤ 9999 →
  (∀ q, q ∈ posts db →
     datetime.year (Post.publish q) = datetime.year (Post.publish p) →
     datetime.month (Post.publish q) = datetime.month (Post.publish p) →
     datetime.day (Post.publish q) = datetime.day (Post.publish p) →
     Post.slug q = Post.slug p → q = p) →
  post_list int_of_str now db request tag_slug = Ok (Render t ctx) →
  p ∈ Paginator.page_object_list (list_posts ctx) →
  (∃ ctx',
     post_detail CommentForm now db request'
       (datetime.year (Post.publish p)) (datetime.month (Post.publish p))
       (datetime.day (Post.publish p)) (Post.slug p)
     = Ok (Render "blog/post/detail.html" ctx') ∧
     detail_post ctx' = p) ∧
  (∀ objects, NoDup objects → (∀ q, q ∈ objects → q ∈ posts db) →
     p ∈ objects →
     get_object_or_404
       (detail_lookup (datetime.year (Post.publish p))
          (datetime.month (Post.publish p)) (datetime.day (Post.publish p))
          (Post.slug p)) objects
     = Ok p).
Proof.
  intros Hnd Hyear Huniq Hlist Hp.
  apply (post_list_page_published _ _ _ _ _ _ _ _ Hlist) in Hp.
  apply elem_of_Post_published in Hp as [Hp [Hst _]].
  assert (∀ objects, NoDup objects → (∀ q, q ∈ objects → q ∈ posts db) →
            p ∈ objects →
            get_object_or_404
              (detail_lookup (datetime.year (Post.publish p))
                 (datetime.month (Post.publish p))
                 (datetime.day (Post.publish p)) (Post.slug p)) objects
            = Ok p) as Hget.
  { intros objects Hnd' Hsub Hin. apply get_object_or_404_Ok.
    apply filter_unique; [done|done|by repeat split|].
    intros q Hq (? & ? & ? & ? & ?). apply Huniq; [by apply Hsub|done..]. }
  split; [|exact Hget].
  rewrite post_detail_unfold, (detail_get_in_range _ _ _ _ _ Hyear).
  rewrite (Hget (posts db)); [|by apply (NoDup_fmap_1 Post.id)|done|done].
  eexists. split; done.
Qed.

Lemma post_list_then_detail_witness :
  NoDup (Post.id <$> posts Fixture.blog) ∧
  1 ≤ datetime.year (Post.publish Fixture.django) ≤ 9999 ∧
  post_list Fixture.int_of_str Fixture.now Fixture.blog
    (Fixture.request "GET" [] []) (Some "search")
  = Ok (Render "blog/post/list.html"
          (mkListContext
             (Paginator.mkPage [Fixture.django] 1
                (Paginator.mk [Fixture.django] 3))
             (Some (Tag.mk 3 "Search" "search")))) ∧
  ∃ ctx',
    post_detail Fixture.CommentForm Fixture.now Fixture.blog
      (Fixture.request "GET" [] []) 2024 4 1 "django"
    = Ok (Render "blog/post/detail.html" ctx') ∧
    detail_post ctx' = Fixture.django.
Proof.
  assert (NoDup (Post.id <$> posts Fixture.blog)) as Hnd.
  { apply (bool_decide_unpack _). vm_compute. exact I. }
  assert (1 ≤ datetime.year (Post.publish Fixture.django) ≤ 9999) as Hyear
    by (simpl; lia).
  assert (post_list Fixture.int_of_str Fixture.now Fixture.blog
            (Fixture.request "GET" [] []) (Some "search")
          = Ok (Render "blog/post/list.html"
                  (mkListContext
                     (Paginator.mkPage [Fixture.django] 1
                        (Paginator.mk [Fixture.django] 3))
                     (Some (Tag.mk 3 "Search" "search")))))
    as H by (vm_compute; reflexivity).
  split; [exact Hnd|]. split; [exact Hyear|]. split; [exact H|].
  assert (∀ q, q ∈ posts Fixture.blog →
            datetime.year (Post.publish q)
              = datetime.year (Post.publish Fixture.django) →
            datetime.month (Post.publish q)
              = datetime.month (Post.publish Fixture.django) →
            datetime.day (Post.publish q)
              = datetime.day (Post.publish Fixture.django) →
            Post.slug q = Post.slug Fixture.django → q = Fixture.django)
    as Huniq.
  { apply (proj1 (Forall_forall
                    (λ q, datetime.year (Post.publish q)
                            = datetime.year (Post.publish Fixture.django) →
                          datetime.month (Post.publish q)
                            = datetime.month (Post.publish Fixture.django) →
                          datetime.day (Post.publish q)
                            = datetime.day (Post.publish Fixture.django) →
                          Post.slug q = Post.slug Fixture.django →
                          q = Fixture.django) (posts Fixture.blog))).
    unfold Fixture.blog. simpl.
    repeat (apply Forall_cons; split); [..|by apply Forall_nil];
      intros Hy Hm Hd Hs; try reflexivity; discriminate. }
  assert (Fixture.django ∈ [Fixture.django]) as Hin by left.
  exact (proj1 (post_list_then_detail Fixture.int_of_str Fixture.CommentForm
                  Fixture.now Fixture.blog (Fixture.request "GET" [] [])
                  (Fixture.request "GET" [] []) (Some "search") _ _
                  Fixture.django Hnd Hyear Huniq H Hin)).
Defined.

(** X17: Post Detail followed by Share and Comment.  When the ids of the
    Post table are unique, the post that Post Detail displays is found by
    Share and by Comment under its id: a Share request that is not a POST
    is answered with the empty form for that post, and a Comment POST is
    answered for that post. *)
Theorem post_detail_then_share_comment
    (get_absolute_url : Post.t → string)
    (build_absolute_uri : HttpRequest → string → string)
    (EmailPostForm : gmap string string → forms.ErrorDict * EmailPostData)
    (transport_accepts : EmailMessage → bool)
    (CommentForm : gmap string string → forms.ErrorDict * CommentData)
    (now : datetime.t) (db : DB) (request share_request comment_request : HttpRequest)
    (year month day : Z) (post_slug : string) (t : string) (ctx : detail_context)
    (outbox : list EmailMessage) :
  NoDup (Post.id <$> posts db) →
  post_detail CommentForm now db request year month day post_slug
    = Ok (Render t ctx) →
  let post := detail_post ctx in
  get_object_or_404 (id_lookup (Post.id post)) (Post_objects db) = Ok post ∧
  (method share_request ≠ "POST" →
   post_share get_absolute_url build_absolute_uri EmailPostForm
     transport_accepts db share_request (Post.id post) outbox
   = (Ok (Render "blog/post/share.html"
            (mkShareContext post (forms.unbound EmailPostForm) false)),
      outbox)) ∧
  (method comment_request = "POST" →
   ∃ ctx', (post_comment CommentForm now (Post.id post) comment_request db).1
           = Ok (Render "blog/post/comment.html" ctx') ∧
           comment_post ctx' = post).
Proof.
  intros Hnd. rewrite post_detail_unfold. unfold Post_objects.
  destruct (detail_get _ _ _ _ _) as [p|e] eqn:D; [|done].
  intros [= <- <-]. simpl.
  apply detail_get_Ok in D as [_ E].
  destruct (filter_singleton _ _ _ E) as (Hp & (Hst & _) & _).
  assert (get_object_or_404 (id_lookup (Post.id p)) (posts db) = Ok p) as G.
  { apply get_object_or_404_Ok.
    pose proof (id_lookup_at_most_one (Post.id p) _ Hnd) as Hone.
    assert (p ∈ filter (id_lookup (Post.id p)) (posts db)) as Hin
      by (apply list_elem_of_filter; done).
    destruct (filter (id_lookup (Post.id p)) (posts db)) as [|x [|y l]];
      [by apply not_elem_of_nil in Hin| |simpl in Hone; lia].
    by apply list_elem_of_singleton in Hin as ->. }
  split_and!; [done| |].
  - intros Hm. rewrite (post_share_fetched _ _ _ _ _ _ _ _ _ G).
    by rewrite bool_decide_eq_false_2.
  - intros Hm. rewrite (post_comment_fetched _ _ _ _ _ _ Hm G). cbv zeta.
    destruct (forms.is_valid _); eexists; done.
Qed.

Lemma post_detail_then_share_comment_witness :
  NoDup (Post.id <$> posts Fixture.blog) ∧
  post_detail Fixture.CommentForm Fixture.now Fixture.blog
    (Fixture.request "GET" [] []) 2024 4 5 "paging"
  = Ok (Render "blog/post/detail.html"
          (mkDetailContext Fixture.paging []
             (forms.unbound Fixture.CommentForm) [])) ∧
  get_object_or_404 (id_lookup (Post.id Fixture.paging))
    (Post_objects Fixture.blog) = Ok Fixture.paging.
Proof.
  assert (NoDup (Post.id <$> posts Fixture.blog)) as Hnd.
  { apply (bool_decide_unpack _). vm_compute. exact I. }
  assert (post_detail Fixture.CommentForm Fixture.now Fixture.blog
            (Fixture.request "GET" [] []) 2024 4 5 "paging"
          = Ok (Render "blog/post/detail.html"
                  (mkDetailContext Fixture.paging []
                     (forms.unbound Fixture.CommentForm) [])))
    as H by (vm_compute; reflexivity).
  split; [exact Hnd|]. split; [exact H|].
  exact (proj1 (post_detail_then_share_comment Fixture.get_absolute_url
                  Fixture.build_absolute_uri Fixture.EmailPostForm (λ _, true)
                  Fixture.CommentForm Fixture.now Fixture.blog
                  (Fixture.request "GET" [] []) (Fixture.request "GET" [] [])
                  Fixture.comment_request 2024 4 5 "paging" _ _ [] Hnd H)).
Defined.
